(** * fetcha-stream: the two Xcode project patching scripts

    A shallow embedding of [add_build_phase.py] (the Permission-Fix
    Injector) and [add_resources_to_xcode.py] (the Resource Bundler).

    Both scripts read [project.pbxproj] as text, look for anchors with
    [in], [re.search] and [str.replace], splice text in and write the
    file back.  The embedding has four layers:

    - [Str]: the Python string operations the scripts use;
    - [Re]: a backtracking matcher for the regular-expression constructs
      that occur in the scripts' patterns;
    - [Sys]: the file system, the console, the entropy source and the
      process outcome, threaded through a small monad;
    - [Uuid], [BuildPhase] and [Resources]: identifier generation and
      the two scripts.

    On top of the embedding, [Observe] and [Examples] name what the
    statements talk about (the identifiers a run draws, concrete
    descriptors), [ReSpec] gives the patterns a declarative reading, and
    [Sym] evaluates the Resource Bundler with the identifiers left
    unknown.  The lemmas follow the definitions; the claims about the
    runs are in [Claims].

    Text is a list of 8-bit characters.  Every anchor of the scripts is
    ASCII, so matching on UTF-8 bytes and on code points agree. *)

From Stdlib Require Import String Ascii NArith ZArith List Lia.
From stdpp Require Import base option list gmap strings.

Abbreviation str := (list ascii).

(** A literal of the source, as text. *)
Definition lit (s : string) : str := list_ascii_of_string s.

Definition tab : ascii := "009"%char.
Definition nl : ascii := "010"%char.
Definition dq : ascii := "034"%char.
Definition bslash : ascii := "092"%char.

(** One line of a template: [indent] tabs, the body, a newline. *)
Definition line (indent : nat) (body : str) : str :=
  repeat tab indent ++ body ++ [nl].

(** ** Python string operations *)
Module Str.

(** [s.startswith(p)] *)
Fixpoint startswith (p s : str) : bool :=
  match p, s with
  | [], _ => true
  | _ :: _, [] => false
  | a :: p', b :: s' => Ascii.eqb a b && startswith p' s'
  end.

(** [s.find(p)]: the least index at which [p] occurs, [None] for -1. *)
Fixpoint find (p s : str) : option nat :=
  if startswith p s then Some 0
  else match s with
       | [] => None
       | _ :: s' => S <$> find p s'
       end.

(** [p in s] *)
Definition contains (p s : str) : bool :=
  match find p s with Some _ => true | None => false end.

(** The scan of [s.replace(old, new)] for a non-empty [old]: left to
    right, occurrences do not overlap.  [skip] counts the characters of
    the occurrence just replaced that are still to be passed over. *)
Fixpoint replace_from (old new : str) (skip : nat) (s : str) : str :=
  match s with
  | [] => []
  | c :: s' =>
      match skip with
      | S k => replace_from old new k s'
      | O =>
          if startswith old s
          then new ++ replace_from old new (length old - 1) s'
          else c :: replace_from old new 0 s'
      end
  end.

(** [s.replace(old, new)].  For an empty [old] Python puts [new] before
    every character and at the end. *)
Definition replace (old new s : str) : str :=
  match old with
  | [] => new ++ flat_map (fun c => c :: new) s
  | _ :: _ => replace_from old new 0 s
  end.

(** [c.isspace()] on the 7-bit range: TAB, LF, VT, FF, CR, FS, GS, RS,
    US and space. *)
Definition isspace (c : ascii) : bool :=
  let n := nat_of_ascii c in
  ((9 <=? n) && (n <=? 13)) || ((28 <=? n) && (n <=? 32)).

Fixpoint lstrip (s : str) : str :=
  match s with
  | c :: s' => if isspace c then lstrip s' else s
  | [] => []
  end.

(** [s.rstrip()] *)
Definition rstrip (s : str) : str := rev (lstrip (rev s)).

(** The number of indices at which [p] occurs in [s] (occurrences may
    overlap). *)
Fixpoint occurrences (p s : str) : nat :=
  (if startswith p s then 1 else 0) +
  match s with
  | [] => 0
  | _ :: s' => occurrences p s'
  end.

End Str.

(** ** Regular expressions

    The patterns of the scripts are sequences of literals, repetitions
    of one character class (greedy [*] and [+], lazy [*?]) and capture
    groups.  [match_here] is the backtracking search of Python's [re]
    on such a sequence: a greedy repetition tries the longest run
    first, a lazy one the shortest. *)
Module Re.

Inductive atom :=
| Lit (l : str)                       (* literal text *)
| Star (cls : ascii -> bool)          (* [cls]*  *)
| Plus (cls : ascii -> bool)          (* [cls]+  *)
| LazyStar (cls : ascii -> bool)      (* [cls]*? *)
| Open (g : nat)                      (* ( of group g *)
| Close (g : nat).                    (* ) of group g *)

Abbreviation regex := (list atom).

(** Character classes of the patterns. *)
Definition any : ascii -> bool := fun _ => true.          (* . under DOTALL *)
Definition none_of (c : ascii) : ascii -> bool :=         (* [^c] *)
  fun x => negb (Ascii.eqb x c).
Definition hex_upper (x : ascii) : bool :=                (* [A-F0-9] *)
  let n := nat_of_ascii x in
  ((65 <=? n) && (n <=? 70)) || ((48 <=? n) && (n <=? 57)).

(** Matcher state: where each open group started (as the text that was
    still ahead) and the text of each closed group. *)
Record captures := Captures {
  opened : list (nat * str);
  closed : list (nat * str)
}.

Definition no_captures : captures := Captures [] [].

Fixpoint assoc (g : nat) (l : list (nat * str)) : option str :=
  match l with
  | [] => None
  | (k, v) :: l' => if Nat.eqb g k then Some v else assoc g l'
  end.

Definition open_group (g : nat) (s : str) (m : captures) : captures :=
  Captures ((g, s) :: opened m) (closed m).

Definition close_group (g : nat) (s : str) (m : captures) : captures :=
  match assoc g (opened m) with
  | Some s0 => Captures (opened m) ((g, take (length s0 - length s) s0) :: closed m)
  | None => m
  end.

(** [m.group(g)] *)
Definition group (g : nat) (m : captures) : str :=
  default [] (assoc g (closed m)).

(** Greedy run of [cls], longest first, then the continuation [k]. *)
Fixpoint greedy (cls : ascii -> bool) (k : str -> option captures) (s : str)
  : option captures :=
  match s with
  | c :: s' =>
      if cls c then
        match greedy cls k s' with
        | Some r => Some r
        | None => k s
        end
      else k s
  | [] => k s
  end.

(** Lazy run of [cls], shortest first, then the continuation [k]. *)
Fixpoint lazy (cls : ascii -> bool) (k : str -> option captures) (s : str)
  : option captures :=
  match k s with
  | Some r => Some r
  | None =>
      match s with
      | c :: s' => if cls c then lazy cls k s' else None
      | [] => None
      end
  end.

Fixpoint match_here (re : regex) (s : str) (m : captures) {struct re}
  : option captures :=
  match re with
  | [] => Some m
  | Lit l :: re' =>
      if Str.startswith l s then match_here re' (drop (length l) s) m else None
  | Star cls :: re' => greedy cls (fun s' => match_here re' s' m) s
  | Plus cls :: re' =>
      match s with
      | c :: s' =>
          if cls c then greedy cls (fun s'' => match_here re' s'' m) s' else None
      | [] => None
      end
  | LazyStar cls :: re' => lazy cls (fun s' => match_here re' s' m) s
  | Open g :: re' => match_here re' s (open_group g s m)
  | Close g :: re' => match_here re' s (close_group g s m)
  end.

(** [re.search(re, s)]: the match at the leftmost position that has one. *)
Fixpoint search (re : regex) (s : str) : option captures :=
  match match_here re s no_captures with
  | Some r => Some r
  | None =>
      match s with
      | [] => None
      | _ :: s' => search re s'
      end
  end.

End Re.

(** ** The process environment

    The scripts read and write files, print lines, draw random bytes
    and may end the process.  [world] is what they act on; a program is
    a function of the world that returns an outcome and the new world. *)
Module Sys.

Inductive exn :=
| FileNotFoundError (path : string).

Inductive outcome (A : Type) :=
| Done (a : A)                (* ran to its end *)
| Exited (status : Z)         (* sys.exit(status) *)
| Raised (e : exn).           (* an exception nobody catches *)
Arguments Done {A} a.
Arguments Exited {A} status.
Arguments Raised {A} e.

Record world := World {
  files : gmap string str;    (* path -> content *)
  console : list string;      (* lines printed so far, oldest first *)
  entropy : nat -> N;         (* the n-th value os.urandom(16) yields *)
  drawn : nat                 (* how many values were drawn *)
}.

Definition prog (A : Type) : Type := world -> outcome A * world.

Definition ret {A} (a : A) : prog A := fun w => (Done a, w).

Definition bind {A B} (c : prog A) (k : A -> prog B) : prog B :=
  fun w =>
    match c w with
    | (Done a, w') => k a w'
    | (Exited n, w') => (Exited n, w')
    | (Raised e, w') => (Raised e, w')
    end.

#[export] Instance prog_ret : MRet prog := @ret.
#[export] Instance prog_bind : MBind prog := fun A B k c => bind c k.

(** [with open(path, 'r') as f: f.read()] *)
Definition read_file (path : string) : prog str :=
  fun w =>
    match files w !! path with
    | Some c => (Done c, w)
    | None => (Raised (FileNotFoundError path), w)
    end.

(** [with open(path, 'w') as f: f.write(content)] *)
Definition write_file (path : string) (content : str) : prog unit :=
  fun w =>
    (Done tt, World (<[path := content]> (files w)) (console w) (entropy w) (drawn w)).

(** [print(msg)] *)
Definition print (msg : string) : prog unit :=
  fun w => (Done tt, World (files w) (console w ++ [msg]) (entropy w) (drawn w)).

(** [os.path.exists(path)] *)
Definition path_exists (path : string) : prog bool :=
  fun w => (Done (bool_decide (is_Some (files w !! path))), w).

(** [sys.exit(status)] *)
Definition exit {A} (status : Z) : prog A :=
  fun w => (Exited status, w).

(** [os.urandom(16)] read as a big-endian integer. *)
Definition urandom16 : prog N :=
  fun w =>
    (Done (entropy w (drawn w) mod 2 ^ 128)%N,
     World (files w) (console w) (entropy w) (S (drawn w))).

End Sys.
Import Sys.

(** ** Identifier generation (both scripts) *)
Module Uuid.

(** [uuid.UUID(bytes=..., version=4).int]: the variant bits are set to
    binary 10 and the version nibble to 4. *)
Definition uuid4_int (r : N) : N :=
  let x := N.ldiff r (N.shiftl 0xc000 48) in
  let x := N.lor x (N.shiftl 0x8000 48) in
  let x := N.ldiff x (N.shiftl 0xf000 64) in
  N.lor x (N.shiftl 4 76).

Definition hexdigit (n : N) : ascii :=
  nth (N.to_nat n) (lit "0123456789abcdef") "0"%char.

(** ['%032x' % x] *)
Definition hex32 (x : N) : str :=
  map (fun k => hexdigit (N.shiftr x (4 * N.of_nat (31 - k)) mod 16)%N) (seq 0 32).

(** [c.upper()] on the 7-bit range *)
Definition upper (c : ascii) : ascii :=
  let n := nat_of_ascii c in
  if (97 <=? n) && (n <=? 122) then ascii_of_nat (n - 32) else c.

(** [uuid.uuid4().hex[:24].upper()] for the random value [r] *)
Definition uuid_of (r : N) : str :=
  map upper (take 24 (hex32 (uuid4_int r))).

Definition generate_uuid : prog str :=
  r ← urandom16; mret (uuid_of r).

End Uuid.

(** ** add_build_phase.py: the Permission-Fix Injector *)
Module BuildPhase.
Import Uuid.

Definition marker : str := lit "Fix Binary Permissions".

(** A backslash followed by a double quote: what the source's escaped
    quotes inside [script_content] denote. *)
Definition esc_dq : str := [bslash; dq].

Definition bin_dir : str :=
  lit "${TARGET_BUILD_DIR}/${UNLOCALIZED_RESOURCES_FOLDER_PATH}/bin".

(** [script_content]; each [\n] below is a backslash and an [n]. *)
Definition script_content : str :=
  lit "# Fix permissions for bundled binaries\n" ++
  lit "if [ -d " ++ esc_dq ++ bin_dir ++ esc_dq ++ lit " ]; then\n" ++
  lit "    chmod +x " ++ esc_dq ++ bin_dir ++ lit "/yt-dlp" ++ esc_dq ++ lit "\n" ++
  lit "    chmod +x " ++ esc_dq ++ bin_dir ++ lit "/ffmpeg" ++ esc_dq ++ lit "\n" ++
  lit "    chmod +x " ++ esc_dq ++ bin_dir ++ lit "/ffprobe" ++ esc_dq ++ lit "\n" ++
  lit "    echo " ++ esc_dq ++ lit "Fixed binary permissions" ++ esc_dq ++ lit "\n" ++
  lit "else\n" ++
  lit "    echo " ++ esc_dq ++ lit "No bundled binaries found" ++ esc_dq ++ lit "\n" ++
  lit "fi".

Definition begin_shell : str := lit "/* Begin PBXShellScriptBuildPhase section */".
Definition end_shell : str := lit "/* End PBXShellScriptBuildPhase section */".
Definition end_resources : str := lit "/* End PBXResourcesBuildPhase section */".

(** The text [str.replace] is given on line 72: the pattern of line 48
    copied with its regular-expression escape, in a string that is not
    raw, so the backslash is part of the text. *)
Definition end_resources_escaped : str :=
  lit "/\* End PBXResourcesBuildPhase section */".

(** The record of the phase: the lines the two templates share. *)
Definition phase_record (script_phase_ref : str) : str :=
  line 2 (script_phase_ref ++ lit " /* Fix Binary Permissions */ = {") ++
  line 3 (lit "isa = PBXShellScriptBuildPhase;") ++
  line 3 (lit "buildActionMask = 2147483647;") ++
  line 3 (lit "files = (") ++
  line 3 (lit ");") ++
  line 3 (lit "inputFileListPaths = (") ++
  line 3 (lit ");") ++
  line 3 (lit "inputPaths = (") ++
  line 3 (lit ");") ++
  line 3 (lit "name = " ++ [dq] ++ lit "Fix Binary Permissions" ++ [dq] ++ lit ";") ++
  line 3 (lit "outputFileListPaths = (") ++
  line 3 (lit ");") ++
  line 3 (lit "outputPaths = (") ++
  line 3 (lit ");") ++
  line 3 (lit "runOnlyForDeploymentPostprocessing = 0;") ++
  line 3 (lit "shellPath = /bin/sh;") ++
  line 3 (lit "shellScript = " ++ [dq] ++ script_content ++ [dq] ++ lit ";") ++
  line 2 (lit "};").

(** [new_section] of lines 50-71 *)
Definition new_section (script_phase_ref : str) : str :=
  [nl] ++ line 0 begin_shell ++ phase_record script_phase_ref ++ line 0 end_shell.

(** [new_phase] of lines 76-94 *)
Definition new_phase (script_phase_ref : str) : str :=
  phase_record script_phase_ref.

(** Line 43 *)
Definition shell_section_re : Re.regex :=
  [Re.Open 1; Re.Lit begin_shell; Re.LazyStar Re.any; Re.Lit end_shell; Re.Close 1].

(** Line 48 *)
Definition end_resources_re : Re.regex := [Re.Lit end_resources].

(** Line 99 *)
Definition target_re : Re.regex :=
  [Re.Open 1;
   Re.Lit (lit "F8522F062E588C4300B30F2A /* yt-dlp-MAX */ = {");
   Re.Star (Re.none_of "}");
   Re.Lit (lit "buildPhases = (");
   Re.Plus (Re.none_of ")");
   Re.Close 1;
   Re.Lit (lit ");")].

(** Lines 42-96: put the phase record into the shell-script section,
    creating the section when there is none. *)
Definition add_phase_record (script_phase_ref content : str) : str :=
  match Re.search shell_section_re content with
  | None =>
      match Re.search end_resources_re content with
      | Some _ =>
          Str.replace end_resources_escaped
            (end_resources_escaped ++ new_section script_phase_ref) content
      | None => content
      end
  | Some _ =>
      Str.replace end_shell (new_phase script_phase_ref ++ end_shell) content
  end.

(** Line 106 *)
Definition new_phases (script_phase_ref build_phases : str) : str :=
  build_phases ++ lit "," ++ [nl] ++ repeat tab 4 ++
  script_phase_ref ++ lit " /* Fix Binary Permissions */,".

(** Lines 98-107: add the phase to the main target's build phases. *)
Definition wire_target (script_phase_ref content : str) : str :=
  match Re.search target_re content with
  | Some m =>
      let build_phases := Re.group 1 m in
      if negb (Str.contains script_phase_ref build_phases) then
        Str.replace (build_phases ++ lit ");")
          (new_phases script_phase_ref build_phases ++ [nl] ++ repeat tab 3 ++ lit ");")
          content
      else content
  | None => content
  end.

(** Lines 42-107 *)
Definition patch (script_phase_ref content : str) : str :=
  wire_target script_phase_ref (add_phase_record script_phase_ref content).

Definition msg_exists : string :=
  "✓ 'Fix Binary Permissions' build phase already exists".
Definition msg_added : list string :=
  ["✓ Successfully added 'Fix Binary Permissions' build phase";
   "✓ The build phase will run after copying resources";
   "✓ It will ensure yt-dlp, ffmpeg, and ffprobe are executable"].

Definition add_build_phase (pbxproj_path : string) : prog unit :=
  content ← read_file pbxproj_path;
  if Str.contains marker content then
    print msg_exists
  else
    script_phase_ref ← generate_uuid;
    script_build_ref ← generate_uuid;
    write_file pbxproj_path (patch script_phase_ref content);;
    print "✓ Successfully added 'Fix Binary Permissions' build phase";;
    print "✓ The build phase will run after copying resources";;
    print "✓ It will ensure yt-dlp, ffmpeg, and ffprobe are executable".

Definition pbxproj_path : string :=
  "/Users/mstrslv/devspace/yt-dlp-MAX/yt-dlp-MAX.xcodeproj/project.pbxproj".

Definition msg_not_found (path : string) : string :=
  "Error: project.pbxproj not found at " +:+ path.

(** Lines 117-124 *)
Definition main : prog unit :=
  found ← path_exists pbxproj_path;
  (if negb found then
     print (msg_not_found pbxproj_path);; exit 1
   else mret tt);;
  add_build_phase pbxproj_path.

End BuildPhase.

(** ** add_resources_to_xcode.py: the Resource Bundler *)
Module Resources.
Import Uuid.

Definition marker_bin : str := lit "Resources/bin".
Definition marker_folder : str := lit "Resources folder".

(** The six identifiers of lines 28-34, in the order they are drawn. *)
Record refs := Refs {
  resources_folder_ref : str;
  bin_folder_ref : str;
  ytdlp_ref : str;
  ffmpeg_ref : str;
  ffprobe_ref : str;
  resources_build_ref : str
}.

Definition section_re (name : string) : Re.regex :=
  [Re.Open 1;
   Re.Lit (lit "/* Begin " ++ lit name ++ lit " section */");
   Re.LazyStar Re.any;
   Re.Lit (lit "/* End " ++ lit name ++ lit " section */");
   Re.Close 1].

(** Line 37 *)
Definition file_ref_section_re : Re.regex := section_re "PBXFileReference".
(** Line 76 *)
Definition group_section_re : Re.regex := section_re "PBXGroup".
(** Line 119 *)
Definition build_file_section_re : Re.regex := section_re "PBXBuildFile".

Definition end_file_ref : str := lit "/* End PBXFileReference section */".
Definition end_group : str := lit "/* End PBXGroup section */".
Definition end_build_file : str := lit "/* End PBXBuildFile section */".

Definition quoted (s : str) : str := [dq] ++ s ++ [dq].

(** One record of [new_refs]: [file_type] and [path] are spelled as in
    the template, with their quotes where it has them. *)
Definition file_ref_record (ref name file_type path : str) : str :=
  line 2 (ref ++ lit " /* " ++ name ++ lit " */ = {isa = PBXFileReference; lastKnownFileType = "
          ++ file_type ++ lit "; path = " ++ path ++ lit "; sourceTree = "
          ++ quoted (lit "<group>") ++ lit "; };").

Definition folder_type : str := lit "folder".
Definition executable_type : str := quoted (lit "compiled.mach-o.executable").

(** [new_refs] of lines 45-50 *)
Definition new_refs (r : refs) : str :=
  file_ref_record (resources_folder_ref r) (lit "Resources") folder_type (lit "Resources") ++
  file_ref_record (bin_folder_ref r) (lit "bin") folder_type (lit "bin") ++
  file_ref_record (ytdlp_ref r) (lit "yt-dlp") executable_type (quoted (lit "yt-dlp")) ++
  file_ref_record (ffmpeg_ref r) (lit "ffmpeg") executable_type (lit "ffmpeg") ++
  file_ref_record (ffprobe_ref r) (lit "ffprobe") executable_type (lit "ffprobe").

(** Lines 52-54 *)
Definition add_file_refs (r : refs) (content : str) : str :=
  Str.replace end_file_ref (new_refs r ++ end_file_ref) content.

(** Line 57 *)
Definition project_object_re : Re.regex :=
  [Re.Open 1;
   Re.Lit (lit "F8522EFE2E588C4300B30F2A /* Project object */");
   Re.LazyStar Re.any;
   Re.Lit (lit "mainGroup = ");
   Re.Close 1;
   Re.Open 2;
   Re.Plus Re.hex_upper;
   Re.Close 2].

(** [main_group_pattern] of line 64 *)
Definition main_group_re (main_group_id : str) : Re.regex :=
  [Re.Lit (main_group_id ++ lit " = {");
   Re.Star (Re.none_of "}");
   Re.Lit (lit "children = (");
   Re.Open 1;
   Re.Plus (Re.none_of ")");
   Re.Close 1;
   Re.Lit (lit ");")].

(** Line 71 *)
Definition new_children (r : refs) (children : str) : str :=
  Str.rstrip children ++ lit "," ++ [nl] ++ repeat tab 4 ++
  resources_folder_ref r ++ lit " /* Resources */,".

(** Lines 56-73: add the Resources group to the main group's children. *)
Definition add_to_main_group (r : refs) (content : str) : str :=
  match Re.search project_object_re content with
  | Some m =>
      let main_group_id := Re.group 2 m in
      match Re.search (main_group_re main_group_id) content with
      | Some m' =>
          let children := Re.group 1 m' in
          if negb (Str.contains (resources_folder_ref r) children) then
            Str.replace (lit "children = (" ++ children ++ lit ");")
              (lit "children = (" ++ new_children r children ++ [nl] ++ repeat tab 3 ++ lit ");")
              content
          else content
      | None => content
      end
  | None => content
  end.

(** [resources_group] of lines 80-98 *)
Definition resources_group (r : refs) : str :=
  line 2 (resources_folder_ref r ++ lit " /* Resources */ = {") ++
  line 3 (lit "isa = PBXGroup;") ++
  line 3 (lit "children = (") ++
  line 4 (bin_folder_ref r ++ lit " /* bin */,") ++
  line 3 (lit ");") ++
  line 3 (lit "path = Resources;") ++
  line 3 (lit "sourceTree = " ++ quoted (lit "<group>") ++ lit ";") ++
  line 2 (lit "};") ++
  line 2 (bin_folder_ref r ++ lit " /* bin */ = {") ++
  line 3 (lit "isa = PBXGroup;") ++
  line 3 (lit "children = (") ++
  line 4 (ytdlp_ref r ++ lit " /* yt-dlp */,") ++
  line 4 (ffmpeg_ref r ++ lit " /* ffmpeg */,") ++
  line 4 (ffprobe_ref r ++ lit " /* ffprobe */,") ++
  line 3 (lit ");") ++
  line 3 (lit "path = bin;") ++
  line 3 (lit "sourceTree = " ++ quoted (lit "<group>") ++ lit ";") ++
  line 2 (lit "};").

(** Lines 75-100 *)
Definition add_groups (r : refs) (content : str) : str :=
  match Re.search group_section_re content with
  | Some _ => Str.replace end_group (resources_group r ++ end_group) content
  | None => content
  end.

(** Lines 103-106 *)
Definition resources_phase_re : Re.regex :=
  [Re.Open 1;
   Re.Lit (lit "/* Begin PBXResourcesBuildPhase section */");
   Re.LazyStar Re.any;
   Re.Close 1;
   Re.Open 2;
   Re.Lit (lit "F8522F052E588C4300B30F2A /* Resources */ = {");
   Re.Star (Re.none_of "}");
   Re.Lit (lit "files = (");
   Re.Star (Re.none_of ")");
   Re.Lit (lit ");");
   Re.Close 2].

(** Line 112 *)
Definition phase_entry (r : refs) : str :=
  repeat tab 4 ++ resources_build_ref r ++ lit " /* Resources in Resources */,".

(** Lines 102-116: add the build file to the Resources build phase. *)
Definition add_to_resources_phase (r : refs) (content : str) : str :=
  match Re.search resources_phase_re content with
  | Some m =>
      let resources_section := Re.group 2 m in
      if negb (Str.contains (resources_build_ref r) resources_section) then
        Str.replace resources_section
          (Str.replace (lit "files = (") (lit "files = (" ++ [nl] ++ phase_entry r)
             resources_section)
          content
      else content
  | None => content
  end.

(** [new_build_file] of lines 123-124 *)
Definition build_file_record (r : refs) : str :=
  line 2 (resources_build_ref r ++ lit " /* Resources in Resources */ = {isa = PBXBuildFile; fileRef = "
          ++ resources_folder_ref r ++ lit " /* Resources */; };").

(** Lines 118-126 *)
Definition add_build_file (r : refs) (content : str) : str :=
  match Re.search build_file_section_re content with
  | Some _ => Str.replace end_build_file (build_file_record r ++ end_build_file) content
  | None => content
  end.

(** Lines 44-126: everything between the section check and the write. *)
Definition patch (r : refs) (content : str) : str :=
  add_build_file r
    (add_to_resources_phase r
       (add_groups r
          (add_to_main_group r
             (add_file_refs r content)))).

Definition msg_exists : string :=
  "✓ Resources folder appears to already be in the project".
Definition msg_no_section : string :=
  "Error: Could not find PBXFileReference section".
Definition msg_added : list string :=
  ["✓ Successfully added Resources folder to Xcode project";
   "⚠️  Note: You still need to:";
   "   1. Open the project in Xcode";
   "   2. Verify Resources folder appears in the project navigator";
   "   3. Check Build Phases → Copy Bundle Resources includes Resources folder";
   "   4. Add the 'Fix Binary Permissions' build phase script"].

Definition generate_refs : prog refs :=
  resources_folder_ref ← generate_uuid;
  bin_folder_ref ← generate_uuid;
  ytdlp_ref ← generate_uuid;
  ffmpeg_ref ← generate_uuid;
  ffprobe_ref ← generate_uuid;
  resources_build_ref ← generate_uuid;
  mret (Refs resources_folder_ref bin_folder_ref ytdlp_ref ffmpeg_ref ffprobe_ref
          resources_build_ref).

Definition add_resources_to_project (pbxproj_path : string) : prog unit :=
  content ← read_file pbxproj_path;
  if Str.contains marker_bin content || Str.contains marker_folder content then
    print msg_exists
  else
    r ← generate_refs;
    match Re.search file_ref_section_re content with
    | None => print msg_no_section
    | Some _ =>
        write_file pbxproj_path (patch r content);;
        print "✓ Successfully added Resources folder to Xcode project";;
        print "⚠️  Note: You still need to:";;
        print "   1. Open the project in Xcode";;
        print "   2. Verify Resources folder appears in the project navigator";;
        print "   3. Check Build Phases → Copy Bundle Resources includes Resources folder";;
        print "   4. Add the 'Fix Binary Permissions' build phase script"
    end.

Definition pbxproj_path : string :=
  "/Users/mstrslv/devspace/yt-dlp-MAX/yt-dlp-MAX.xcodeproj/project.pbxproj".

Definition msg_not_found (path : string) : string :=
  "Error: project.pbxproj not found at " +:+ path.

Definition msg_backed_up (backup_path : string) : string :=
  "✓ Backed up project file to " +:+ backup_path.

(** Lines 139-154 *)
Definition main : prog unit :=
  found ← path_exists pbxproj_path;
  (if negb found then
     print (msg_not_found pbxproj_path);; exit 1
   else mret tt);;
  let backup_path := pbxproj_path +:+ ".backup" in
  backup_content ← read_file pbxproj_path;
  write_file backup_path backup_content;;
  print (msg_backed_up backup_path);;
  add_resources_to_project pbxproj_path.

End Resources.

(** ** What a run draws *)
Module Observe.

(** The identifier the [k]-th call of [generate_uuid] returns when the
    run starts in world [w]. *)
Definition nth_uuid (w : world) (k : nat) : str :=
  Uuid.uuid_of (entropy w (k + drawn w) mod 2 ^ 128)%N.

(** The six identifiers [add_resources_to_project] draws from [w]. *)
Definition drawn_refs (w : world) : Resources.refs :=
  Resources.Refs (nth_uuid w 0) (nth_uuid w 1) (nth_uuid w 2)
    (nth_uuid w 3) (nth_uuid w 4) (nth_uuid w 5).

(** The [k]-th character of [uuid_of r], from the left. *)
Definition digit (r : N) (k : nat) : ascii :=
  Uuid.upper
    (Uuid.hexdigit (N.shiftr (Uuid.uuid4_int r) (4 * N.of_nat (31 - k)) mod 16)%N).


(** What every file reference record contains, whatever its identifier. *)
Definition any_file_ref : str := lit "isa = PBXFileReference;".

(** The content of [path] in [w]; empty when there is no such file. *)
Definition content_at (w : world) (path : string) : str :=
  default [] (files w !! path).

(** The world with other files, more console lines and more draws. *)
Definition update (w : world) (fs : gmap string str) (lines : list string)
    (draws : nat) : world :=
  World fs (console w ++ lines) (entropy w) (draws + drawn w).

(** The world [add_resources_to_project] starts in when [main] calls it. *)
Definition backed_up (w : world) (content : str) : world :=
  update w
    (<[Resources.pbxproj_path +:+ ".backup" := content]> (files w))
    [Resources.msg_backed_up (Resources.pbxproj_path +:+ ".backup")] 0.

End Observe.

(** ** Concrete descriptors and worlds *)
Module Examples.

Definition entropy0 (n : nat) : N :=
  (0x0123456789ABCDEF0123456789ABCDEF * N.of_nat (S n))%N.

(** A world whose only file is [path], nothing printed, nothing drawn. *)
Definition world_with (path : string) (content : str) : world :=
  World {[path := content]} [] entropy0 0.

Definition empty_world : world := World ∅ [] entropy0 0.

(** A descriptor that already has the phase. *)
Definition already_patched : str :=
  line 3 (lit "name = " ++ [dq] ++ lit "Fix Binary Permissions" ++ [dq] ++ lit ";").

(** A descriptor with a Resources build phase section and no shell
    script section. *)
Definition only_resources_phase : str :=
  line 0 (lit "/* Begin PBXResourcesBuildPhase section */") ++
  line 0 (lit "/* End PBXResourcesBuildPhase section */").

(** A descriptor with a group section and no file reference section. *)
Definition no_file_refs : str :=
  line 0 (lit "/* Begin PBXGroup section */") ++
  line 0 (lit "/* End PBXGroup section */").

Definition main_group_record : str :=
  line 2 (lit "F8522EFD2E588C4300B30F2A = {") ++
  line 3 (lit "isa = PBXGroup;") ++
  line 3 (lit "children = (") ++
  line 4 (lit "F8522F082E588C4300B30F2A /* yt-dlp-MAX */,") ++
  line 3 (lit ");") ++
  line 3 (lit "sourceTree = " ++ [dq] ++ lit "<group>" ++ [dq] ++ lit ";") ++
  line 2 (lit "};").

Definition project_record : str :=
  line 2 (lit "F8522EFE2E588C4300B30F2A /* Project object */ = {") ++
  line 3 (lit "isa = PBXProject;") ++
  line 3 (lit "mainGroup = F8522EFD2E588C4300B30F2A;") ++
  line 3 (lit "targets = (") ++
  line 4 (lit "F8522F062E588C4300B30F2A /* yt-dlp-MAX */,") ++
  line 3 (lit ");") ++
  line 2 (lit "};").

Definition resources_phase_record : str :=
  line 2 (lit "F8522F052E588C4300B30F2A /* Resources */ = {") ++
  line 3 (lit "isa = PBXResourcesBuildPhase;") ++
  line 3 (lit "buildActionMask = 2147483647;") ++
  line 3 (lit "files = (") ++
  line 3 (lit ");") ++
  line 3 (lit "runOnlyForDeploymentPostprocessing = 0;") ++
  line 2 (lit "};").

(** The minimal descriptors: the four sections the Resource Bundler
    looks for, empty, and the project object.  [with_group] adds the
    record of the main group to the group section, [with_phase] the
    record of the hard-coded Resources build phase to its section. *)
Definition minimal_descriptor (with_group with_phase : bool) : str :=
  line 0 (lit "// !$*UTF8*$!") ++
  line 0 (lit "{") ++
  line 1 (lit "objects = {") ++
  [nl] ++
  line 0 (lit "/* Begin PBXBuildFile section */") ++
  line 0 (lit "/* End PBXBuildFile section */") ++
  [nl] ++
  line 0 (lit "/* Begin PBXFileReference section */") ++
  line 0 (lit "/* End PBXFileReference section */") ++
  [nl] ++
  line 0 (lit "/* Begin PBXGroup section */") ++
  (if with_group then main_group_record else []) ++
  line 0 (lit "/* End PBXGroup section */") ++
  [nl] ++
  line 0 (lit "/* Begin PBXProject section */") ++
  project_record ++
  line 0 (lit "/* End PBXProject section */") ++
  [nl] ++
  line 0 (lit "/* Begin PBXResourcesBuildPhase section */") ++
  (if with_phase then resources_phase_record else []) ++
  line 0 (lit "/* End PBXResourcesBuildPhase section */") ++
  line 1 (lit "};") ++
  line 1 (lit "rootObject = F8522EFE2E588C4300B30F2A /* Project object */;") ++
  line 0 (lit "}").

(** The record of the main target, as Xcode writes it. *)
Definition target_record : str :=
  line 2 (lit "F8522F062E588C4300B30F2A /* yt-dlp-MAX */ = {") ++
  line 3 (lit "isa = PBXNativeTarget;") ++
  line 3 (lit "buildPhases = (") ++
  line 4 (lit "F8522F032E588C4300B30F2A /* Sources */,") ++
  line 4 (lit "F8522F042E588C4300B30F2A /* Frameworks */,") ++
  line 4 (lit "F8522F052E588C4300B30F2A /* Resources */,") ++
  line 3 (lit ");") ++
  line 3 (lit "name = " ++ [dq] ++ lit "yt-dlp-MAX" ++ [dq] ++ lit ";") ++
  line 2 (lit "};").

(** A descriptor with the main target and nothing else. *)
Definition only_target : str :=
  line 0 (lit "/* Begin PBXNativeTarget section */") ++
  target_record ++
  line 0 (lit "/* End PBXNativeTarget section */").

End Examples.

(** ** What a match is

    The declarative reading of a pattern: [matches re s m m'] holds when
    some prefix of [s] is in the language of [re] and reading it turns
    the captures [m] into [m'].  It says nothing about which of several
    matches the search prefers. *)
Module ReSpec.
Import Re.

Definition all_in (cls : ascii -> bool) (run : str) : Prop :=
  Forall (fun c => cls c = true) run.

Inductive matches : regex -> str -> captures -> captures -> Prop :=
| matches_end s m :
    matches [] s m m
| matches_lit l re s m m' :
    matches re s m m' ->
    matches (Lit l :: re) (l ++ s) m m'
| matches_star cls re run s m m' :
    all_in cls run ->
    matches re s m m' ->
    matches (Star cls :: re) (run ++ s) m m'
| matches_plus cls re c run s m m' :
    all_in cls (c :: run) ->
    matches re s m m' ->
    matches (Plus cls :: re) (c :: run ++ s) m m'
| matches_lazy cls re run s m m' :
    all_in cls run ->
    matches re s m m' ->
    matches (LazyStar cls :: re) (run ++ s) m m'
| matches_open g re s m m' :
    matches re s (open_group g s m) m' ->
    matches (Open g :: re) s m m'
| matches_close g re s m m' :
    matches re s (close_group g s m) m' ->
    matches (Close g :: re) s m m'.

End ReSpec.

(** ** Evaluation with unknown identifiers

    What the Resource Bundler writes depends on the six identifiers it
    draws.  To follow a run for all of them at once, text is read
    symbolically: a character is either known or stands for one digit of
    one identifier.  The operations below are the string and matcher
    operations on such text; they answer only when the answer is the
    same for every value of the unknown digits, and [None] otherwise. *)
Module Sym.

Inductive schar :=
| Ch (c : ascii)          (* this character *)
| Hex (k j : nat).        (* digit j of identifier k: one of 0-9, A-F *)

Abbreviation sstr := (list schar).

(** The identifiers a symbolic text is read with. *)
Abbreviation valuation := (nat -> str).

Definition dchar (v : valuation) (a : schar) : ascii :=
  match a with
  | Ch c => c
  | Hex k j => nth j (v k) "0"%char
  end.

(** The text a symbolic text stands for. *)
Definition den (v : valuation) (t : sstr) : str := dchar v <$> t.

(** A known text, read symbolically. *)
Definition sym (s : str) : sstr := Ch <$> s.

(** Identifier [k]: 24 digits, of which the thirteenth is the version
    digit 4 of [uuid4]. *)
Definition uuid_sym (k : nat) : sstr :=
  (Hex k <$> seq 0 12) ++ [Ch "4"%char] ++ (Hex k <$> seq 13 11).

Definition hex_digits : str := lit "0123456789ABCDEF".

(** The valuations symbolic text is read with: each identifier has the
    shape of [uuid_sym]. *)
Definition well_formed (v : valuation) : Prop :=
  forall k, v k = den v (uuid_sym k)
            /\ Forall (fun c => Re.hex_upper c = true) (v k).

(** Are two characters equal? *)
Definition ceq (a b : schar) : option bool :=
  match a, b with
  | Ch x, Ch y => Some (Ascii.eqb x y)
  | Ch x, Hex _ _ | Hex _ _, Ch x => if Re.hex_upper x then None else Some false
  | Hex k j, Hex k' j' => if (k =? k') && (j =? j') then Some true else None
  end.

(** Is a character in a class? *)
Definition ccls (cls : ascii -> bool) (a : schar) : option bool :=
  match a with
  | Ch c => Some (cls c)
  | Hex _ _ =>
      if forallb cls hex_digits then Some true
      else if forallb (fun c => negb (cls c)) hex_digits then Some false
      else None
  end.

(** The text, when none of it is unknown. *)
Fixpoint concrete (t : sstr) : option str :=
  match t with
  | [] => Some []
  | Ch c :: t' => s ← concrete t'; Some (c :: s)
  | Hex _ _ :: _ => None
  end.

(** *** String operations *)

Fixpoint startswith (p t : sstr) : option bool :=
  match p, t with
  | [], _ => Some true
  | _ :: _, [] => Some false
  | a :: p', b :: t' =>
      match ceq a b with
      | Some true => startswith p' t'
      | Some false => Some false
      | None =>
          match startswith p' t' with
          | Some false => Some false
          | _ => None
          end
      end
  end.

Fixpoint find (p t : sstr) : option (option nat) :=
  b ← startswith p t;
  if b : bool then Some (Some 0)
  else match t with
       | [] => Some None
       | _ :: t' => r ← find p t'; Some (fmap (M:=option) S r)
       end.

Definition contains (p t : sstr) : option bool :=
  r ← find p t;
  Some (match r with Some _ => true | None => false end).

Fixpoint replace_from (old new : sstr) (skip : nat) (t : sstr) : option sstr :=
  match t with
  | [] => Some []
  | c :: t' =>
      match skip with
      | S k => replace_from old new k t'
      | O =>
          b ← startswith old t;
          if b : bool
          then r ← replace_from old new (length old - 1) t'; Some (new ++ r)
          else r ← replace_from old new 0 t'; Some (c :: r)
      end
  end.

(** Only for a non-empty [old]. *)
Definition replace (old new t : sstr) : option sstr :=
  match old with
  | [] => None
  | _ :: _ => replace_from old new 0 t
  end.

Fixpoint lstrip (t : sstr) : option sstr :=
  match t with
  | c :: t' => b ← ccls Str.isspace c; if b : bool then lstrip t' else Some t
  | [] => Some []
  end.

Definition rstrip (t : sstr) : option sstr :=
  r ← lstrip (rev t); Some (rev r).

Fixpoint occurrences (p t : sstr) : option nat :=
  b ← startswith p t;
  n ← match t with
      | [] => Some 0
      | _ :: t' => occurrences p t'
      end;
  Some ((if b : bool then 1 else 0) + n).

(** *** The matcher *)

Record captures := Captures {
  opened : list (nat * sstr);
  closed : list (nat * sstr)
}.

Definition no_captures : captures := Captures [] [].

Fixpoint assoc (g : nat) (l : list (nat * sstr)) : option sstr :=
  match l with
  | [] => None
  | (k, v) :: l' => if Nat.eqb g k then Some v else assoc g l'
  end.

Definition open_group (g : nat) (t : sstr) (m : captures) : captures :=
  Captures ((g, t) :: opened m) (closed m).

Definition close_group (g : nat) (t : sstr) (m : captures) : captures :=
  match assoc g (opened m) with
  | Some t0 => Captures (opened m) ((g, take (length t0 - length t) t0) :: closed m)
  | None => m
  end.

Definition group (g : nat) (m : captures) : sstr :=
  default [] (assoc g (closed m)).

Definition den_captures (v : valuation) (m : captures) : Re.captures :=
  Re.Captures (prod_map id (den v) <$> opened m) (prod_map id (den v) <$> closed m).

(** The outer [option] is the answer being known, the inner one the
    match. *)
Abbreviation answer := (option (option captures)).

Fixpoint greedy (cls : ascii -> bool) (k : sstr -> answer) (t : sstr) : answer :=
  match t with
  | c :: t' =>
      b ← ccls cls c;
      if b : bool then
        r ← greedy cls k t';
        match r with
        | Some m => Some (Some m)
        | None => k t
        end
      else k t
  | [] => k t
  end.

Fixpoint lazy (cls : ascii -> bool) (k : sstr -> answer) (t : sstr) : answer :=
  r ← k t;
  match r with
  | Some m => Some (Some m)
  | None =>
      match t with
      | c :: t' => b ← ccls cls c; if b : bool then lazy cls k t' else Some None
      | [] => Some None
      end
  end.

Fixpoint match_here (re : Re.regex) (t : sstr) (m : captures) {struct re} : answer :=
  match re with
  | [] => Some (Some m)
  | Re.Lit l :: re' =>
      b ← startswith (sym l) t;
      if b : bool then match_here re' (drop (length l) t) m else Some None
  | Re.Star cls :: re' => greedy cls (fun t' => match_here re' t' m) t
  | Re.Plus cls :: re' =>
      match t with
      | c :: t' =>
          b ← ccls cls c;
          if b : bool then greedy cls (fun t'' => match_here re' t'' m) t'
          else Some None
      | [] => Some None
      end
  | Re.LazyStar cls :: re' => lazy cls (fun t' => match_here re' t' m) t
  | Re.Open g :: re' => match_here re' t (open_group g t m)
  | Re.Close g :: re' => match_here re' t (close_group g t m)
  end.

Fixpoint search (re : Re.regex) (t : sstr) : answer :=
  r ← match_here re t no_captures;
  match r with
  | Some m => Some (Some m)
  | None =>
      match t with
      | [] => Some None
      | _ :: t' => search re t'
      end
  end.

(** The search is known to have found a match. *)
Definition matched (a : answer) : bool :=
  match a with
  | Some (Some _) => true
  | _ => false
  end.

(** *** The templates of the Resource Bundler

    A template is read symbolically by expanding it with placeholders
    for the identifiers: identifier [k] is 24 times the character with
    code [128 + k], which no template contains. *)

Definition placeholder (k : nat) : str := repeat (ascii_of_nat (128 + k)) 24.

Definition placeholders : Resources.refs :=
  Resources.Refs (placeholder 0) (placeholder 1) (placeholder 2)
    (placeholder 3) (placeholder 4) (placeholder 5).

(** [run] is the number of placeholder characters just read. *)
Fixpoint abstract_from (run : nat) (s : str) : sstr :=
  match s with
  | [] => []
  | c :: s' =>
      let n := nat_of_ascii c in
      if 128 <=? n then
        (if run =? 12 then Ch "4"%char else Hex (n - 128) run)
          :: abstract_from (S run) s'
      else Ch c :: abstract_from 0 s'
  end.

Definition abstract (s : str) : sstr := abstract_from 0 s.

(** The identifiers of a valuation, in the order of [Resources.refs]. *)
Definition refs_of (v : valuation) : Resources.refs :=
  Resources.Refs (v 0) (v 1) (v 2) (v 3) (v 4) (v 5).

(** *** The steps of the Resource Bundler *)

Definition add_file_refs (t : sstr) : option sstr :=
  replace (sym Resources.end_file_ref)
    (abstract (Resources.new_refs placeholders) ++ sym Resources.end_file_ref) t.

Definition add_to_main_group (t : sstr) : option sstr :=
  r ← search Resources.project_object_re t;
  match r with
  | Some m =>
      main_group_id ← concrete (group 2 m);
      r' ← search (Resources.main_group_re main_group_id) t;
      match r' with
      | Some m' =>
          let children := group 1 m' in
          b ← contains (uuid_sym 0) children;
          if negb b then
            stripped ← rstrip children;
            replace (sym (lit "children = (") ++ children ++ sym (lit ");"))
              (sym (lit "children = (")
               ++ (stripped ++ abstract (Resources.new_children placeholders []))
               ++ sym ([nl] ++ repeat tab 3 ++ lit ");"))
              t
          else Some t
      | None => Some t
      end
  | None => Some t
  end.

Definition add_groups (t : sstr) : option sstr :=
  r ← search Resources.group_section_re t;
  match r with
  | Some _ =>
      replace (sym Resources.end_group)
        (abstract (Resources.resources_group placeholders) ++ sym Resources.end_group) t
  | None => Some t
  end.

Definition add_to_resources_phase (t : sstr) : option sstr :=
  r ← search Resources.resources_phase_re t;
  match r with
  | Some m =>
      let resources_section := group 2 m in
      b ← contains (uuid_sym 5) resources_section;
      if negb b then
        section' ← replace (sym (lit "files = ("))
                      (sym (lit "files = (" ++ [nl])
                       ++ abstract (Resources.phase_entry placeholders))
                      resources_section;
        replace resources_section section' t
      else Some t
  | None => Some t
  end.

Definition add_build_file (t : sstr) : option sstr :=
  r ← search Resources.build_file_section_re t;
  match r with
  | Some _ =>
      replace (sym Resources.end_build_file)
        (abstract (Resources.build_file_record placeholders)
         ++ sym Resources.end_build_file) t
  | None => Some t
  end.

Definition patch (t : sstr) : option sstr :=
  t1 ← add_file_refs t;
  t2 ← add_to_main_group t1;
  t3 ← add_groups t2;
  t4 ← add_to_resources_phase t3;
  add_build_file t4.

End Sym.

(** * Facts about the string operations *)
Module StrFacts.
Import Str.

Lemma startswith_app p r : startswith p (p ++ r) = true.
Proof.
  induction p as [|a p IH]; simpl; [done|].
  by rewrite Ascii.eqb_refl, IH.
Qed.

Lemma startswith_inv p s : startswith p s = true -> s = p ++ drop (length p) s.
Proof.
  revert s; induction p as [|a p IH]; intros [|b s]; simpl; try done.
  intros [Hab Hp]%andb_prop. apply Ascii.eqb_eq in Hab as ->.
  f_equal. by apply IH.
Qed.

Lemma startswith_iff p s : startswith p s = true <-> exists r, s = p ++ r.
Proof.
  split.
  - intros H. eexists. by apply startswith_inv.
  - intros [r ->]. apply startswith_app.
Qed.

Lemma find_cons p c s :
  find p (c :: s) = if startswith p (c :: s) then Some 0 else S <$> find p s.
Proof. done. Qed.

Lemma find_some p s i :
  find p s = Some i -> s = take i s ++ p ++ drop (i + length p) s.
Proof.
  revert i; induction s as [|c s IH]; intros i.
  - simpl. destruct (startswith p []) eqn:E; [|done].
    intros [= <-]. by apply startswith_inv in E.
  - rewrite find_cons. destruct (startswith p (c :: s)) eqn:E.
    + intros [= <-]. by apply startswith_inv in E.
    + destruct (find p s) as [j|] eqn:F; [|done]. intros [= <-].
      simpl. f_equal. by apply IH.
Qed.

Lemma find_hit p s : startswith p s = true -> find p s = Some 0.
Proof. intros H. destruct s; simpl; by rewrite H. Qed.

Lemma find_none p s : find p s = None -> forall pre suf, s <> pre ++ p ++ suf.
Proof.
  intros H pre; revert s H.
  induction pre as [|c pre IH]; intros s H suf ->.
  - simpl in H. by rewrite find_hit in H by apply startswith_app.
  - simpl in H. destruct (startswith p (c :: pre ++ p ++ suf)); [done|].
    destruct (find p (pre ++ p ++ suf)) eqn:F; [done|].
    by eapply IH.
Qed.

Lemma contains_true p s :
  contains p s = true <-> exists pre suf, s = pre ++ p ++ suf.
Proof.
  unfold contains. split.
  - destruct (find p s) as [i|] eqn:F; [|done]. intros _.
    eexists _, _. by apply find_some.
  - intros (pre & suf & ->). destruct (find p _) eqn:F; [done|].
    by eapply find_none in F.
Qed.

Lemma contains_false p s :
  contains p s = false <-> forall pre suf, s <> pre ++ p ++ suf.
Proof.
  split.
  - intros H pre suf ->.
    assert (contains p (pre ++ p ++ suf) = true) by (apply contains_true; eauto).
    congruence.
  - intros H. destruct (contains p s) eqn:E; [|done].
    apply contains_true in E as (pre & suf & ->). by destruct (H pre suf).
Qed.

Lemma contains_app_r p a b : contains p b = true -> contains p (a ++ b) = true.
Proof.
  rewrite !contains_true. intros (pre & suf & ->).
  exists (a ++ pre), suf. by rewrite <- app_assoc.
Qed.


(** *** Replacement *)

Lemma replace_from_skip old new k s :
  replace_from old new k s = replace_from old new 0 (drop k s).
Proof.
  revert k; induction s as [|c s IH]; intros [|k]; try done.
  simpl. apply IH.
Qed.

Lemma replace_from_hit old new s :
  old <> [] -> startswith old s = true ->
  replace_from old new 0 s = new ++ replace_from old new 0 (drop (length old) s).
Proof.
  intros Hne H. destruct s as [|c s].
  - by destruct old.
  - simpl replace_from at 1. rewrite H. f_equal.
    rewrite replace_from_skip. destruct old as [|a old]; [done|].
    simpl. by rewrite Nat.sub_0_r.
Qed.

Lemma replace_from_miss old new c s :
  startswith old (c :: s) = false ->
  replace_from old new 0 (c :: s) = c :: replace_from old new 0 s.
Proof. intros H. simpl. by rewrite H. Qed.

Lemma replace_from_absent old new s :
  find old s = None -> replace_from old new 0 s = s.
Proof.
  induction s as [|c s IH]; [done|].
  rewrite find_cons. destruct (startswith old (c :: s)) eqn:E; [done|].
  intros H. rewrite replace_from_miss by done. f_equal. apply IH.
  by destruct (find old s).
Qed.

(** Replacing a text that does not occur changes nothing. *)
Lemma replace_absent old new s :
  contains old s = false -> replace old new s = s.
Proof.
  unfold contains, replace. destruct old as [|a old].
  - by destruct s.
  - destruct (find (a :: old) s) eqn:F; [done|]. intros _.
    by apply replace_from_absent.
Qed.

(** *** Counting occurrences *)

Lemma occurrences_cons p c s :
  occurrences p (c :: s) =
  (if startswith p (c :: s) then 1 else 0) + occurrences p s.
Proof. done. Qed.

Lemma occurrences_app_ge p a b : occurrences p b <= occurrences p (a ++ b).
Proof.
  induction a as [|c a IH]; [done|].
  simpl app. rewrite occurrences_cons. lia.
Qed.

Lemma occurrences_hit p r : 1 <= occurrences p (p ++ r).
Proof.
  destruct (p ++ r) as [|c s] eqn:E.
  - destruct p; [|done]. simpl. lia.
  - rewrite occurrences_cons, <- E, startswith_app. lia.
Qed.

Lemma occurrences_zero_find p s : occurrences p s = 0 -> find p s = None.
Proof.
  induction s as [|c s IH].
  - simpl. destruct (startswith p []); [done|done].
  - rewrite occurrences_cons, find_cons.
    destruct (startswith p (c :: s)); [done|]. simpl. intros H.
    by rewrite IH.
Qed.

Lemma find_none_occurrences p s : find p s = None -> occurrences p s = 0.
Proof.
  induction s as [|c s IH].
  - simpl. destruct (startswith p []); [done|done].
  - rewrite occurrences_cons, find_cons.
    destruct (startswith p (c :: s)); [done|]. simpl.
    destruct (find p s); [done|]. intros _. by apply IH.
Qed.

Lemma replace_from_unique old new pre post :
  old <> [] ->
  occurrences old (pre ++ old ++ post) = 1 ->
  replace_from old new 0 (pre ++ old ++ post) = pre ++ new ++ post.
Proof.
  intros Hne. induction pre as [|c pre IH]; intros H.
  - simpl app in *. rewrite replace_from_hit by (done || apply startswith_app).
    rewrite drop_app_length. f_equal.
    apply replace_from_absent, occurrences_zero_find.
    destruct old as [|c' old']; [done|].
    change ((c' :: old') ++ post) with (c' :: old' ++ post) in H.
    rewrite occurrences_cons in H.
    change (c' :: old' ++ post) with ((c' :: old') ++ post) in H.
    rewrite startswith_app in H.
    pose proof (occurrences_app_ge (c' :: old') old' post). lia.
  - simpl app in *. rewrite occurrences_cons in H.
    pose proof (occurrences_app_ge old pre (old ++ post)).
    pose proof (occurrences_hit old post).
    destruct (startswith old (c :: pre ++ old ++ post)) eqn:E; [lia|].
    rewrite replace_from_miss by done. f_equal. apply IH. lia.
Qed.

(** A text that occurs exactly once is replaced exactly there. *)
Lemma replace_unique old new pre post :
  old <> [] ->
  occurrences old (pre ++ old ++ post) = 1 ->
  replace old new (pre ++ old ++ post) = pre ++ new ++ post.
Proof.
  intros Hne H. unfold replace. destruct old; [done|].
  by apply replace_from_unique.
Qed.

(** *** More on replacement and containment *)





(** *** Stripping *)



End StrFacts.

(** * Facts about the matcher *)
Module ReFacts.
Import Re ReSpec StrFacts.

Lemma greedy_inv cls k s r :
  greedy cls k s = Some r ->
  exists run rest, s = run ++ rest /\ all_in cls run /\ k rest = Some r.
Proof.
  revert r; induction s as [|c s IH]; intros r; simpl.
  - intros H. exists [], []. by repeat split; [constructor|].
  - destruct (cls c) eqn:Hc.
    + destruct (greedy cls k s) as [r'|] eqn:G.
      * intros [= <-]. destruct (IH r' eq_refl) as (run & rest & -> & Hrun & Hk).
        exists (c :: run), rest. repeat split; [by constructor|done].
      * intros H. exists [], (c :: s). by repeat split; [constructor|].
    + intros H. exists [], (c :: s). by repeat split; [constructor|].
Qed.

Lemma lazy_inv cls k s r :
  lazy cls k s = Some r ->
  exists run rest, s = run ++ rest /\ all_in cls run /\ k rest = Some r.
Proof.
  revert r; induction s as [|c s IH]; intros r; simpl.
  - destruct (k []) as [r'|] eqn:K; [|done].
    intros [= <-]. exists [], []. by repeat split; [constructor|].
  - destruct (k (c :: s)) as [r'|] eqn:K.
    + intros [= <-]. exists [], (c :: s). by repeat split; [constructor|].
    + destruct (cls c) eqn:Hc; [|done]. intros H.
      destruct (IH r H) as (run & rest & -> & Hrun & Hk).
      exists (c :: run), rest. repeat split; [by constructor|done].
Qed.

(** What the matcher returns is a match. *)
Lemma match_here_matches re s m m' :
  match_here re s m = Some m' -> matches re s m m'.
Proof.
  revert s m m'; induction re as [|a re IH]; intros s m m'; simpl.
  - intros [= <-]. constructor.
  - destruct a as [l|cls|cls|cls|g|g].
    + destruct (Str.startswith l s) eqn:E; [|done]. intros H.
      rewrite (startswith_inv _ _ E). constructor. by apply IH.
    + intros (run & rest & -> & Hrun & Hk)%greedy_inv.
      constructor; [done|]. by apply IH.
    + destruct s as [|c s]; [done|]. destruct (cls c) eqn:Hc; [|done].
      intros (run & rest & -> & Hrun & Hk)%greedy_inv.
      constructor; [by constructor|]. by apply IH.
    + intros (run & rest & -> & Hrun & Hk)%lazy_inv.
      constructor; [done|]. by apply IH.
    + intros H. constructor. by apply IH.
    + intros H. constructor. by apply IH.
Qed.

(** A successful search matched at some position of the text. *)
Lemma search_inv re s m :
  search re s = Some m ->
  exists pre suf, s = pre ++ suf /\ match_here re suf no_captures = Some m.
Proof.
  induction s as [|c s IH]; simpl.
  - destruct (match_here re [] no_captures) eqn:E; [|done].
    intros [= <-]. by exists [], [].
  - destruct (match_here re (c :: s) no_captures) eqn:E.
    + intros [= <-]. by exists [], (c :: s).
    + intros (pre & suf & -> & H)%IH. by exists (c :: pre), suf.
Qed.

Lemma search_none_here re s :
  search re s = None -> match_here re s no_captures = None.
Proof. destruct s; simpl; by destruct (match_here re _ no_captures). Qed.

Lemma take_consumed (x rest : str) :
  take (length (x ++ rest) - length rest) (x ++ rest) = x.
Proof.
  rewrite length_app, Nat.add_sub. by rewrite take_app_length.
Qed.

(** The shape of a match of a pattern [(head [c1]* mid [c2]+) tail]. *)
Lemma record_list_match_inv (head mid tail : str) (c1 c2 : ascii -> bool) suf m :
  match_here
    [Open 1; Lit head; Star c1; Lit mid; Plus c2; Close 1; Lit tail]
    suf no_captures = Some m ->
  exists attrs entries rest,
    suf = group 1 m ++ tail ++ rest
    /\ group 1 m = head ++ attrs ++ mid ++ entries
    /\ all_in c1 attrs
    /\ all_in c2 entries
    /\ entries <> [].
Proof.
  intros H%match_here_matches.
  inversion H as [| | | | |g re s0 m0 m0' H1|]; subst; clear H.
  inversion H1 as [|l re s1 m1 m1' H2| | | | |]; subst.
  inversion H2 as [| |cls re attrs s2 m2 m2' Hattrs H3| | | |]; subst; clear H2.
  inversion H3 as [|l re s3 m3 m3' H4| | | | |]; subst; clear H3.
  inversion H4 as [| | |cls re c run s4 m4 m4' Hrun H5| | |]; subst; clear H4.
  inversion H5 as [| | | | | |g re s5 m5 m5' H6]; subst; clear H5.
  inversion H6 as [|l re s6 m6 m6' H7| | | | |]; subst; clear H6.
  inversion H7; subst; clear H7 H1.
  exists attrs, (c :: run), s6.
  assert (group 1
            (close_group 1 (tail ++ s6)
               (open_group 1
                  (head ++ attrs ++ mid ++ c :: run ++ tail ++ s6) no_captures))
          = head ++ attrs ++ mid ++ c :: run) as Hg.
  { unfold group, close_group, open_group. simpl assoc. simpl default.
    replace (head ++ attrs ++ mid ++ c :: run ++ tail ++ s6)
      with ((head ++ attrs ++ mid ++ c :: run) ++ (tail ++ s6)).
    - apply take_consumed.
    - rewrite <- !app_assoc. simpl. by rewrite <- ?app_assoc. }
  rewrite Hg. repeat split; try done.
  rewrite <- !app_assoc. simpl. by rewrite <- ?app_assoc.
Qed.

(** The shape of a match of the target pattern of [add_build_phase]. *)
Lemma target_match_inv suf m :
  match_here BuildPhase.target_re suf no_captures = Some m ->
  exists attrs entries rest,
    suf = group 1 m ++ lit ");" ++ rest
    /\ group 1 m = lit "F8522F062E588C4300B30F2A /* yt-dlp-MAX */ = {" ++ attrs
                   ++ lit "buildPhases = (" ++ entries
    /\ all_in (none_of "}") attrs
    /\ all_in (none_of ")") entries
    /\ entries <> [].
Proof. apply record_list_match_inv. Qed.

(** The text of a group that was opened at [x ++ rest] and closed at
    [rest] is [x]. *)
Lemma group_closed g (x rest : str) m :
  group g (close_group g rest (open_group g (x ++ rest) m)) = x.
Proof.
  unfold group, close_group, open_group. cbn [opened closed assoc].
  rewrite Nat.eqb_refl. cbn [opened closed assoc].
  rewrite Nat.eqb_refl. cbn [default]. apply take_consumed.
Qed.

(** *** When a search succeeds *)

Lemma search_complete re pre suf m :
  match_here re suf no_captures = Some m -> is_Some (search re (pre ++ suf)).
Proof.
  intros H. induction pre as [|c pre IH].
  - destruct suf; simpl; rewrite H; eauto.
  - simpl. destruct (match_here re (c :: pre ++ suf) no_captures); eauto.
Qed.

Lemma lazy_any_complete k run rest r :
  k rest = Some r -> is_Some (lazy any k (run ++ rest)).
Proof.
  intros H. induction run as [|c run IH].
  - destruct rest; simpl; rewrite H; eauto.
  - simpl. destruct (k (c :: run ++ rest)); eauto.
Qed.

(** A pattern [(b.*?e)] is found exactly in the texts that have [b]
    and, somewhere after it, [e]. *)
Lemma delimited_search b e s :
  is_Some (search [Open 1; Lit b; LazyStar any; Lit e; Close 1] s)
  <-> exists pre mid post, s = pre ++ b ++ mid ++ e ++ post.
Proof.
  split.
  - intros [m (pre & suf & -> & H%match_here_matches)%search_inv].
    inversion H as [| | | | |g re s0 m0 m0' H1|]; subst; clear H.
    inversion H1 as [|l re s1 m1 m1' H2| | | | |]; subst; clear H1.
    inversion H2 as [| | | |cls re mid s2 m2 m2' _ H3| |]; subst; clear H2.
    inversion H3 as [|l re s3 m3 m3' H4| | | | |]; subst; clear H3.
    by exists pre, mid, s3.
  - intros (pre & mid & post & ->).
    assert (is_Some (match_here [Open 1; Lit b; LazyStar any; Lit e; Close 1]
                       (b ++ mid ++ e ++ post) no_captures)) as [m Hm];
      [|by eapply search_complete].
    cbn [match_here]. rewrite startswith_app, drop_app_length.
    eapply lazy_any_complete. cbn [match_here].
    by rewrite startswith_app.
Qed.



(** The shape of a match of a pattern
    [(begin.*?)(head [c1]* mid [c2]* tail)]. *)
Lemma section_record_match_inv
    (begin head mid tail : str) (c1 c2 : ascii -> bool) suf m :
  match_here
    [Open 1; Lit begin; LazyStar any; Close 1;
     Open 2; Lit head; Star c1; Lit mid; Star c2; Lit tail; Close 2]
    suf no_captures = Some m ->
  exists between attrs entries rest,
    suf = begin ++ between ++ group 2 m ++ rest
    /\ group 2 m = head ++ attrs ++ mid ++ entries ++ tail
    /\ all_in c1 attrs
    /\ all_in c2 entries.
Proof.
  intros H%match_here_matches.
  inversion H as [| | | | |g re s0 m0 m0' H1|]; subst; clear H.
  inversion H1 as [|l re s1 m1 m1' H2| | | | |]; subst; clear H1.
  inversion H2 as [| | | |cls re between s2 m2 m2' _ H3| |]; subst; clear H2.
  inversion H3 as [| | | | | |g re s3 m3 m3' H4]; subst; clear H3.
  inversion H4 as [| | | | |g re s4 m4 m4' H5|]; subst; clear H4.
  inversion H5 as [|l re s5 m5 m5' H6| | | | |]; subst; clear H5.
  inversion H6 as [| |cls re attrs s6 m6 m6' Hattrs H7| | | |]; subst; clear H6.
  inversion H7 as [|l re s7 m7 m7' H8| | | | |]; subst; clear H7.
  inversion H8 as [| |cls re entries s8 m8 m8' Hentries H9| | | |]; subst; clear H8.
  inversion H9 as [|l re s9 m9 m9' H10| | | | |]; subst; clear H9.
  inversion H10 as [| | | | | |g re s10 m10 m10' H11]; subst; clear H10.
  inversion H11; subst; clear H11.
  exists between, attrs, entries, s9.
  replace (head ++ attrs ++ mid ++ entries ++ tail ++ s9)
    with ((head ++ attrs ++ mid ++ entries ++ tail) ++ s9)
    by (by rewrite <- !app_assoc).
  rewrite group_closed. by repeat split.
Qed.

End ReFacts.

(** * The shape of a generated identifier *)
Module UuidFacts.
Import Uuid Observe.

Lemma uuid_of_digits r : uuid_of r = map (digit r) (seq 0 24).
Proof.
  unfold uuid_of, hex32. rewrite firstn_map, map_map. reflexivity.
Qed.

Lemma digit_hex r k : Re.hex_upper (digit r k) = true.
Proof.
  unfold digit.
  assert (N.shiftr (uuid4_int r) (4 * N.of_nat (31 - k)) mod 16 < 16)%N as H
    by (by apply N.mod_lt).
  revert H. generalize (N.shiftr (uuid4_int r) (4 * N.of_nat (31 - k)) mod 16)%N.
  intros [|p] H; [reflexivity|].
  do 4 (destruct p as [p|p|]; try reflexivity); lia.
Qed.

(** The version digit. *)
Lemma version_bits r : (N.shiftr (uuid4_int r) 76 mod 16 = 4)%N.
Proof.
  apply N.bits_inj. intros n. change 16%N with (2 ^ 4)%N.
  destruct (N.lt_ge_cases n 4) as [Hlt|Hge].
  - rewrite N.mod_pow2_bits_low by done.
    rewrite N.shiftr_spec by lia. unfold uuid4_int.
    rewrite N.lor_spec, N.ldiff_spec.
    rewrite (N.shiftl_spec_high 4) by lia.
    rewrite (N.shiftl_spec_high 0xf000) by lia.
    replace (n + 76 - 76)%N with n by lia.
    assert (n = 0 \/ n = 1 \/ n = 2 \/ n = 3)%N as [->|[->|[->| ->]]] by lia;
      simpl N.testbit; by rewrite andb_false_r.
  - rewrite N.mod_pow2_bits_high by done.
    symmetry. apply N.bits_above_log2. simpl. lia.
Qed.

Lemma digit_version r : digit r 12 = "4"%char.
Proof.
  unfold digit. change (4 * N.of_nat (31 - 12))%N with 76%N.
  by rewrite version_bits.
Qed.

(** The variant digit: its two high bits are 1 and 0. *)
Lemma variant_bits r :
  In (N.shiftr (uuid4_int r) 60 mod 16)%N [8; 9; 10; 11]%N.
Proof.
  set (n := (N.shiftr (uuid4_int r) 60 mod 16)%N).
  assert (n < 16)%N as Hlt by (by apply N.mod_lt).
  assert (N.testbit n 3 = true) as H3.
  { unfold n. change 16%N with (2 ^ 4)%N.
    rewrite N.mod_pow2_bits_low by done. rewrite N.shiftr_spec by lia.
    unfold uuid4_int. rewrite N.lor_spec, N.ldiff_spec, N.lor_spec.
    rewrite (N.shiftl_spec_low 4) by done.
    rewrite (N.shiftl_spec_low 0xf000) by done.
    rewrite (N.shiftl_spec_high 0x8000) by done.
    simpl N.testbit. by rewrite orb_true_r. }
  assert (N.testbit n 2 = false) as H2.
  { unfold n. change 16%N with (2 ^ 4)%N.
    rewrite N.mod_pow2_bits_low by done. rewrite N.shiftr_spec by lia.
    unfold uuid4_int. rewrite N.lor_spec, N.ldiff_spec, N.lor_spec, N.ldiff_spec.
    rewrite (N.shiftl_spec_low 4) by done.
    rewrite (N.shiftl_spec_low 0xf000) by done.
    rewrite (N.shiftl_spec_high 0x8000) by done.
    rewrite (N.shiftl_spec_high 0xc000) by done.
    simpl N.testbit. by rewrite andb_false_r. }
  revert Hlt H3 H2. generalize n. intros [|p] Hlt H3 H2; [done|].
  do 4 (destruct p as [p|p|]; try discriminate H3; try discriminate H2;
        try (simpl; tauto)); lia.
Qed.

Lemma digit_variant r :
  In (digit r 16) [ "8"; "9"; "A"; "B" ]%char.
Proof.
  unfold digit. change (4 * N.of_nat (31 - 16))%N with 60%N.
  pose proof (variant_bits r) as H. simpl in H.
  destruct H as [<-|[<-|[<-|[<-|[]]]]]; simpl; tauto.
Qed.

Lemma uuid_of_length r : length (uuid_of r) = 24.
Proof. by rewrite uuid_of_digits, length_map, length_seq. Qed.

Lemma uuid_of_hex r : Forall (fun c => Re.hex_upper c = true) (uuid_of r).
Proof.
  rewrite uuid_of_digits. apply List.Forall_forall.
  intros c (k & <- & _)%in_map_iff. apply digit_hex.
Qed.

(** Every run draws identifiers of the shape the symbolic reading
    assumes. *)
Lemma drawn_well_formed (w : world) : Sym.well_formed (Observe.nth_uuid w).
Proof.
  intros k. split; [|apply uuid_of_hex].
  unfold Sym.den, Sym.uuid_sym. simpl.
  unfold nth_uuid.
  generalize (entropy w (k + drawn w) mod 2 ^ 128)%N. intros r.
  rewrite uuid_of_digits. simpl. by rewrite digit_version.
Qed.

End UuidFacts.

(** * Symbolic evaluation is sound *)
Module SymFacts.
Import Sym.

Lemma hex_upper_digit c :
  Re.hex_upper c = true -> In c hex_digits.
Proof.
  destruct c as [[] [] [] [] [] [] [] []]; intros H; try discriminate H;
    vm_compute; repeat (first [left; reflexivity | right]).
Qed.

Lemma den_app v a b : den v (a ++ b) = den v a ++ den v b.
Proof. apply fmap_app. Qed.

Lemma den_length v t : length (den v t) = length t.
Proof. apply length_fmap. Qed.

Lemma den_take v n t : den v (take n t) = take n (den v t).
Proof. apply fmap_take. Qed.

Lemma den_drop v n t : den v (drop n t) = drop n (den v t).
Proof. apply fmap_drop. Qed.

Lemma den_sym v s : den v (sym s) = s.
Proof.
  unfold den, sym. rewrite <- list_fmap_compose.
  induction s as [|c s IH]; simpl; [done|]. by f_equal.
Qed.

Lemma den_rev v t : den v (rev t) = rev (den v t).
Proof.
  induction t as [|a t IH]; simpl; [done|].
  by rewrite den_app, IH.
Qed.

Lemma concrete_sound v t s : concrete t = Some s -> den v t = s.
Proof.
  revert s; induction t as [|[c|k j] t IH]; intros s; simpl.
  - by intros [= <-].
  - destruct (concrete t) as [s'|]; simpl; [|done].
    intros [= <-]. f_equal. by apply IH.
  - done.
Qed.

Section Sound.
Variable v : valuation.
Hypothesis Hwf : well_formed v.

Lemma dchar_hex k j : Re.hex_upper (dchar v (Hex k j)) = true.
Proof.
  simpl. destruct (Hwf k) as [_ Hall].
  destruct (decide (j < length (v k))) as [Hlt|Hge].
  - by apply (proj1 (Forall_nth _ _ _) Hall).
  - rewrite nth_overflow by lia. done.
Qed.

Lemma den_uuid k : den v (uuid_sym k) = v k.
Proof. by destruct (Hwf k) as [<- _]. Qed.

Lemma ceq_sound a b r :
  ceq a b = Some r -> Ascii.eqb (dchar v a) (dchar v b) = r.
Proof.
  destruct a as [x|k j], b as [y|k' j']; simpl ceq.
  - by intros [= <-].
  - destruct (Re.hex_upper x) eqn:Hx; [done|]. intros [= <-].
    apply Ascii.eqb_neq. intros E. simpl in E. subst x.
    pose proof (dchar_hex k' j') as H. simpl in H. congruence.
  - destruct (Re.hex_upper y) eqn:Hy; [done|]. intros [= <-].
    apply Ascii.eqb_neq. intros E. simpl in E. subst y.
    pose proof (dchar_hex k j) as H. simpl in H. congruence.
  - destruct ((k =? k') && (j =? j')) eqn:E; [|done]. intros [= <-].
    apply andb_prop in E as [->%Nat.eqb_eq ->%Nat.eqb_eq].
    apply Ascii.eqb_refl.
Qed.

Lemma ccls_sound cls a r : ccls cls a = Some r -> cls (dchar v a) = r.
Proof.
  destruct a as [x|k j]; unfold ccls.
  - by intros [= <-].
  - pose proof (hex_upper_digit _ (dchar_hex k j)) as Hin.
    destruct (forallb cls hex_digits) eqn:E1.
    + intros [= <-]. by apply (proj1 (forallb_forall _ _) E1).
    + destruct (forallb (fun c => negb (cls c)) hex_digits) eqn:E2; [|done].
      intros [= <-]. apply negb_true_iff.
      by apply (proj1 (forallb_forall _ _) E2).
Qed.

Lemma startswith_sound p t b :
  startswith p t = Some b -> Str.startswith (den v p) (den v t) = b.
Proof.
  revert t b; induction p as [|a p IH]; intros [|c t] b; simpl;
    try (by intros [= <-]).
  destruct (ceq a c) as [[]|] eqn:E.
  - rewrite (ceq_sound _ _ _ E). simpl. apply IH.
  - rewrite (ceq_sound _ _ _ E). by intros [= <-].
  - destruct (startswith p t) as [[]|] eqn:F; try done.
    intros [= <-]. rewrite (IH _ _ F). apply andb_false_r.
Qed.

Lemma find_sound p t r :
  find p t = Some r -> Str.find (den v p) (den v t) = r.
Proof.
  revert r; induction t as [|c t IH]; intros r; simpl find.
  - destruct (startswith p []) as [b|] eqn:E; simpl; [|done].
    change [] with (den v []) at 1.
    rewrite (startswith_sound _ _ _ E).
    destruct b; by intros [= <-].
  - destruct (startswith p (c :: t)) as [b|] eqn:E; simpl; [|done].
    change (dchar v c :: den v t) with (den v (c :: t)).
    rewrite (startswith_sound _ _ _ E).
    destruct b; [by intros [= <-]|].
    destruct (find p t) as [r'|] eqn:F; simpl; [|done].
    intros [= <-]. by rewrite (IH _ eq_refl).
Qed.

Lemma contains_sound p t b :
  contains p t = Some b -> Str.contains (den v p) (den v t) = b.
Proof.
  unfold contains, Str.contains.
  destruct (find p t) as [r|] eqn:F; simpl; [|done].
  intros [= <-]. by rewrite (find_sound _ _ _ F).
Qed.

Lemma replace_from_sound old new k t r :
  replace_from old new k t = Some r ->
  Str.replace_from (den v old) (den v new) k (den v t) = den v r.
Proof.
  revert k r; induction t as [|c t IH]; intros k r.
  - by intros [= <-].
  - simpl replace_from. destruct k as [|k].
    + destruct (startswith old (c :: t)) as [b|] eqn:E; simpl; [|done].
      change (dchar v c :: den v t) with (den v (c :: t)).
      rewrite (startswith_sound _ _ _ E). destruct b.
      * destruct (replace_from old new (length old - 1) t) as [r'|] eqn:F;
          simpl; [|done].
        intros [= <-]. rewrite den_app, den_length. f_equal. by apply IH.
      * destruct (replace_from old new 0 t) as [r'|] eqn:F; simpl; [|done].
        intros [= <-]. simpl. f_equal. by apply IH.
    + apply IH.
Qed.

Lemma replace_sound old new t r :
  replace old new t = Some r ->
  Str.replace (den v old) (den v new) (den v t) = den v r.
Proof.
  unfold replace, Str.replace. destruct old as [|a old]; [done|].
  apply replace_from_sound.
Qed.

Lemma lstrip_sound t r :
  lstrip t = Some r -> Str.lstrip (den v t) = den v r.
Proof.
  revert r; induction t as [|c t IH]; intros r; simpl.
  - by intros [= <-].
  - destruct (ccls Str.isspace c) as [b|] eqn:E; simpl; [|done].
    rewrite (ccls_sound _ _ _ E). destruct b; [apply IH|].
    by intros [= <-].
Qed.

Lemma rstrip_sound t r :
  rstrip t = Some r -> Str.rstrip (den v t) = den v r.
Proof.
  unfold rstrip, Str.rstrip.
  destruct (lstrip (rev t)) as [r'|] eqn:E; simpl; [|done].
  intros [= <-]. rewrite <- den_rev, (lstrip_sound _ _ E). by rewrite den_rev.
Qed.


(** *** The matcher *)

Lemma assoc_den g l :
  Re.assoc g (prod_map id (den v) <$> l) = den v <$> assoc g l.
Proof.
  induction l as [|[k t] l IH]; simpl; [done|].
  by destruct (g =? k).
Qed.

Lemma open_group_den g t m :
  den_captures v (open_group g t m) = Re.open_group g (den v t) (den_captures v m).
Proof. done. Qed.

Lemma close_group_den g t m :
  den_captures v (close_group g t m) = Re.close_group g (den v t) (den_captures v m).
Proof.
  unfold close_group, Re.close_group. simpl Re.opened.
  rewrite assoc_den. destruct (assoc g (opened m)) as [t0|]; simpl; [|done].
  unfold den_captures. simpl. by rewrite den_take, !den_length.
Qed.

Lemma group_den g m : Re.group g (den_captures v m) = den v (group g m).
Proof.
  unfold group, Re.group. simpl Re.closed. rewrite assoc_den.
  by destruct (assoc g (closed m)).
Qed.

Lemma greedy_sound cls kc k :
  (forall t r, k t = Some r -> kc (den v t) = den_captures v <$> r) ->
  forall t r, greedy cls k t = Some r ->
              Re.greedy cls kc (den v t) = den_captures v <$> r.
Proof.
  intros Hk. induction t as [|c t IH]; intros r; simpl.
  - apply (Hk []).
  - destruct (ccls cls c) as [b|] eqn:E; simpl; [|done].
    rewrite (ccls_sound _ _ _ E). destruct b; [|apply (Hk (c :: t))].
    destruct (greedy cls k t) as [r'|] eqn:G; simpl; [|done].
    rewrite (IH _ eq_refl). destruct r' as [m|]; simpl.
    + by intros [= <-].
    + apply (Hk (c :: t)).
Qed.

Lemma lazy_sound cls kc k :
  (forall t r, k t = Some r -> kc (den v t) = den_captures v <$> r) ->
  forall t r, lazy cls k t = Some r ->
              Re.lazy cls kc (den v t) = den_captures v <$> r.
Proof.
  intros Hk. induction t as [|c t IH]; intros r; simpl.
  - destruct (k []) as [r'|] eqn:K; simpl; [|done].
    pose proof (Hk _ _ K) as HK. simpl in HK. rewrite HK.
    destruct r'; simpl; by intros [= <-].
  - destruct (k (c :: t)) as [r'|] eqn:K; simpl; [|done].
    pose proof (Hk _ _ K) as HK. simpl in HK. rewrite HK.
    destruct r' as [m|]; simpl; [by intros [= <-]|].
    destruct (ccls cls c) as [b|] eqn:E; simpl; [|done].
    rewrite (ccls_sound _ _ _ E). destruct b; [apply IH|].
    by intros [= <-].
Qed.

Lemma match_here_sound re t m r :
  match_here re t m = Some r ->
  Re.match_here re (den v t) (den_captures v m) = den_captures v <$> r.
Proof.
  revert t m r; induction re as [|a re IH]; intros t m r; simpl.
  - by intros [= <-].
  - destruct a as [l|cls|cls|cls|g|g].
    + destruct (startswith (sym l) t) as [b|] eqn:E; simpl; [|done].
      apply startswith_sound in E. rewrite den_sym in E. rewrite E.
      destruct b; [|by intros [= <-]].
      intros H%IH. by rewrite den_drop in H.
    + apply greedy_sound. intros t' r'. apply IH.
    + destruct t as [|c t]; simpl; [by intros [= <-]|].
      destruct (ccls cls c) as [b|] eqn:E; simpl; [|done].
      rewrite (ccls_sound _ _ _ E). destruct b; [|by intros [= <-]].
      apply greedy_sound. intros t' r'. apply IH.
    + apply lazy_sound. intros t' r'. apply IH.
    + intros H%IH. by rewrite open_group_den in H.
    + intros H%IH. by rewrite close_group_den in H.
Qed.

Lemma search_sound re t r :
  search re t = Some r -> Re.search re (den v t) = den_captures v <$> r.
Proof.
  revert r; induction t as [|c t IH]; intros r; simpl search.
  - destruct (match_here re [] no_captures) as [r'|] eqn:E; simpl; [|done].
    apply match_here_sound in E. simpl in E. simpl Re.search.
    change (den_captures v no_captures) with Re.no_captures in E. rewrite E.
    destruct r'; simpl; by intros [= <-].
  - destruct (match_here re (c :: t) no_captures) as [r'|] eqn:E; simpl; [|done].
    apply match_here_sound in E. simpl Re.search.
    change (den_captures v no_captures) with Re.no_captures in E.
    change (dchar v c :: den v t) with (den v (c :: t)). rewrite E.
    destruct r'; simpl; [by intros [= <-]|]. apply IH.
Qed.

(** *** The templates *)

Ltac expand_ids :=
  unfold refs_of;
  rewrite <- (den_uuid 0), <- (den_uuid 1), <- (den_uuid 2),
          <- (den_uuid 3), <- (den_uuid 4), <- (den_uuid 5).

Lemma new_refs_den :
  den v (abstract (Resources.new_refs placeholders))
  = Resources.new_refs (refs_of v).
Proof. expand_ids. vm_compute. reflexivity. Qed.

Lemma new_children_den :
  den v (abstract (Resources.new_children placeholders []))
  = Resources.new_children (refs_of v) [].
Proof. expand_ids. vm_compute. reflexivity. Qed.

Lemma resources_group_den :
  den v (abstract (Resources.resources_group placeholders))
  = Resources.resources_group (refs_of v).
Proof. expand_ids. vm_compute. reflexivity. Qed.

Lemma phase_entry_den :
  den v (abstract (Resources.phase_entry placeholders))
  = Resources.phase_entry (refs_of v).
Proof. expand_ids. vm_compute. reflexivity. Qed.

Lemma build_file_record_den :
  den v (abstract (Resources.build_file_record placeholders))
  = Resources.build_file_record (refs_of v).
Proof. expand_ids. vm_compute. reflexivity. Qed.

(** *** The steps *)

Ltac step := cbn [mbind option_bind negb fmap option_fmap option_map].

Lemma new_children_split r children :
  Resources.new_children r children
  = Str.rstrip children ++ Resources.new_children r [].
Proof. done. Qed.

Lemma add_file_refs_sound t t' :
  add_file_refs t = Some t' ->
  Resources.add_file_refs (refs_of v) (den v t) = den v t'.
Proof.
  unfold add_file_refs, Resources.add_file_refs. intros H%replace_sound.
  by rewrite den_app, den_sym, new_refs_den in H.
Qed.

Lemma add_to_main_group_sound t t' :
  add_to_main_group t = Some t' ->
  Resources.add_to_main_group (refs_of v) (den v t) = den v t'.
Proof.
  unfold add_to_main_group, Resources.add_to_main_group.
  destruct (search Resources.project_object_re t) as [r|] eqn:E1; step; [|done].
  rewrite (search_sound _ _ _ E1).
  destruct r as [m|]; step; [|by intros [= <-]].
  rewrite group_den.
  destruct (concrete (group 2 m)) as [id|] eqn:E2; step; [|done].
  rewrite (concrete_sound v _ _ E2).
  destruct (search (Resources.main_group_re id) t) as [r'|] eqn:E3; step; [|done].
  rewrite (search_sound _ _ _ E3).
  destruct r' as [m'|]; step; [|by intros [= <-]].
  rewrite group_den.
  destruct (contains (uuid_sym 0) (group 1 m')) as [b|] eqn:E4; step; [|done].
  apply contains_sound in E4. rewrite den_uuid in E4.
  change (Resources.resources_folder_ref (refs_of v)) with (v 0). rewrite E4.
  destruct b; step; [by intros [= <-]|].
  destruct (rstrip (group 1 m')) as [stripped|] eqn:E5; step; [|done].
  intros H%replace_sound. rewrite <- H.
  rewrite !den_app, !den_sym, new_children_den.
  rewrite (new_children_split _ (den v (group 1 m'))), (rstrip_sound _ _ E5).
  by rewrite <- !app_assoc.
Qed.

Lemma add_groups_sound t t' :
  add_groups t = Some t' ->
  Resources.add_groups (refs_of v) (den v t) = den v t'.
Proof.
  unfold add_groups, Resources.add_groups.
  destruct (search Resources.group_section_re t) as [r|] eqn:E; step; [|done].
  rewrite (search_sound _ _ _ E).
  destruct r as [m|]; step; [|by intros [= <-]].
  intros H%replace_sound.
  by rewrite den_app, den_sym, resources_group_den in H.
Qed.

Lemma add_to_resources_phase_sound t t' :
  add_to_resources_phase t = Some t' ->
  Resources.add_to_resources_phase (refs_of v) (den v t) = den v t'.
Proof.
  unfold add_to_resources_phase, Resources.add_to_resources_phase.
  destruct (search Resources.resources_phase_re t) as [r|] eqn:E; step; [|done].
  rewrite (search_sound _ _ _ E).
  destruct r as [m|]; step; [|by intros [= <-]].
  rewrite group_den.
  destruct (contains (uuid_sym 5) (group 2 m)) as [b|] eqn:E4; step; [|done].
  apply contains_sound in E4. rewrite den_uuid in E4.
  change (Resources.resources_build_ref (refs_of v)) with (v 5). rewrite E4.
  destruct b; step; [by intros [= <-]|].
  destruct (replace _ _ (group 2 m)) as [section'|] eqn:E5; step; [|done].
  apply replace_sound in E5.
  rewrite den_app, !den_sym, phase_entry_den in E5.
  intros H%replace_sound. rewrite <- H, <- E5.
  by rewrite <- !app_assoc.
Qed.

Lemma add_build_file_sound t t' :
  add_build_file t = Some t' ->
  Resources.add_build_file (refs_of v) (den v t) = den v t'.
Proof.
  unfold add_build_file, Resources.add_build_file.
  destruct (search Resources.build_file_section_re t) as [r|] eqn:E; step; [|done].
  rewrite (search_sound _ _ _ E).
  destruct r as [m|]; step; [|by intros [= <-]].
  intros H%replace_sound.
  by rewrite den_app, den_sym, build_file_record_den in H.
Qed.

(** Whatever the identifiers are, the Resource Bundler turns the text
    [t] stands for into the text [t'] stands for. *)
Theorem patch_sound t t' :
  patch t = Some t' ->
  Resources.patch (refs_of v) (den v t) = den v t'.
Proof.
  unfold patch, Resources.patch.
  destruct (add_file_refs t) as [t1|] eqn:E1; step; [|done].
  destruct (add_to_main_group t1) as [t2|] eqn:E2; step; [|done].
  destruct (add_groups t2) as [t3|] eqn:E3; step; [|done].
  destruct (add_to_resources_phase t3) as [t4|] eqn:E4; step; [|done].
  intros E5.
  rewrite (add_file_refs_sound _ _ E1), (add_to_main_group_sound _ _ E2),
    (add_groups_sound _ _ E3), (add_to_resources_phase_sound _ _ E4).
  by apply add_build_file_sound.
Qed.

End Sound.

End SymFacts.

(** * Running the scripts *)
Module Runs.
Import StrFacts.

(** Evaluate a program on a world given by its fields. *)
Ltac run_prog :=
  cbv [mbind mret prog_bind prog_ret Sys.bind Sys.ret
       read_file write_file print path_exists Sys.exit urandom16
       Uuid.generate_uuid Resources.generate_refs
       files console entropy drawn
       Observe.update Observe.backed_up Observe.drawn_refs Observe.nth_uuid].

(** How [add_build_phase] runs on an existing file. *)
Lemma add_build_phase_run (w : world) (path : string) (content : str) :
  files w !! path = Some content ->
  BuildPhase.add_build_phase path w =
    if Str.contains BuildPhase.marker content then
      (Done tt, Observe.update w (files w) [BuildPhase.msg_exists] 0)
    else
      (Done tt,
       Observe.update w
         (<[path := BuildPhase.patch (Observe.nth_uuid w 0) content]> (files w))
         BuildPhase.msg_added 2).
Proof.
  destruct w as [fs out ent n]. simpl. intros Hf.
  unfold BuildPhase.add_build_phase. run_prog. rewrite Hf.
  destruct (Str.contains BuildPhase.marker content); run_prog.
  - done.
  - by rewrite <- !app_assoc.
Qed.

(** How [add_resources_to_project] runs on an existing file. *)
Lemma add_resources_run (w : world) (path : string) (content : str) :
  files w !! path = Some content ->
  Resources.add_resources_to_project path w =
    if Str.contains Resources.marker_bin content
       || Str.contains Resources.marker_folder content then
      (Done tt, Observe.update w (files w) [Resources.msg_exists] 0)
    else
      match Re.search Resources.file_ref_section_re content with
      | None => (Done tt, Observe.update w (files w) [Resources.msg_no_section] 6)
      | Some _ =>
          (Done tt,
           Observe.update w
             (<[path := Resources.patch (Observe.drawn_refs w) content]> (files w))
             Resources.msg_added 6)
      end.
Proof.
  destruct w as [fs out ent n]. simpl. intros Hf.
  unfold Resources.add_resources_to_project. run_prog. rewrite Hf.
  destruct (_ || _); run_prog; [done|].
  destruct (Re.search _ content); run_prog; [|done].
  by rewrite <- !app_assoc.
Qed.

Lemma build_phase_main_missing (w : world) :
  files w !! BuildPhase.pbxproj_path = None ->
  BuildPhase.main w =
    (Exited 1,
     Observe.update w (files w) [BuildPhase.msg_not_found BuildPhase.pbxproj_path] 0).
Proof.
  destruct w as [fs out ent n]. simpl. intros Hf.
  unfold BuildPhase.main. run_prog. rewrite Hf.
  rewrite bool_decide_eq_false_2 by (by intros [? ?]). done.
Qed.


Lemma resources_main_missing (w : world) :
  files w !! Resources.pbxproj_path = None ->
  Resources.main w =
    (Exited 1,
     Observe.update w (files w) [Resources.msg_not_found Resources.pbxproj_path] 0).
Proof.
  destruct w as [fs out ent n]. simpl. intros Hf.
  unfold Resources.main. run_prog. rewrite Hf.
  rewrite bool_decide_eq_false_2 by (by intros [? ?]). done.
Qed.



End Runs.

(** * The claims about the runs *)
Module Claims.
Import StrFacts Runs.

(** ** C4 *)

(** C4: when the descriptor already contains the text
    [Fix Binary Permissions], [add_build_phase] returns with every file
    as it was (nothing is written, nothing is drawn) after printing the
    already-exists line. *)
Theorem C4_marker_present_no_write (w : world) (path : string) (content : str) :
  files w !! path = Some content ->
  Str.contains BuildPhase.marker content = true ->
  BuildPhase.add_build_phase path w =
    (Done tt, World (files w) (console w ++ [BuildPhase.msg_exists])
                (entropy w) (drawn w)).
Proof.
  intros Hf Hm. rewrite (add_build_phase_run w path content Hf), Hm. done.
Qed.

Lemma C4_witness :
  let w := Examples.world_with BuildPhase.pbxproj_path Examples.already_patched in
  BuildPhase.add_build_phase BuildPhase.pbxproj_path w =
    (Done tt, World (files w) (console w ++ [BuildPhase.msg_exists])
                (entropy w) (drawn w)).
Proof.
  apply (C4_marker_present_no_write _ _ Examples.already_patched);
    vm_compute; reflexivity.
Defined.

(** ** C10 *)



(** ** C9 *)

(** C9: when the descriptor has neither marker and no PBXFileReference
    section, [add_resources_to_project] prints the error line and
    returns with every file as it was: none of the later steps has
    written anything. *)
Theorem C9_no_file_ref_section_no_write (w : world) (path : string) (content : str) :
  files w !! path = Some content ->
  Str.contains Resources.marker_bin content = false ->
  Str.contains Resources.marker_folder content = false ->
  Re.search Resources.file_ref_section_re content = None ->
  Resources.add_resources_to_project path w =
    (Done tt, World (files w) (console w ++ [Resources.msg_no_section])
                (entropy w) (6 + drawn w)).
Proof.
  intros Hf Hb Hm Hs.
  rewrite (add_resources_run w path content Hf), Hb, Hm, Hs. done.
Qed.

Lemma C9_witness :
  let w := Examples.world_with Resources.pbxproj_path Examples.no_file_refs in
  Resources.add_resources_to_project Resources.pbxproj_path w =
    (Done tt, World (files w) (console w ++ [Resources.msg_no_section])
                (entropy w) (6 + drawn w)).
Proof.
  apply (C9_no_file_ref_section_no_write _ _ Examples.no_file_refs);
    vm_compute; reflexivity.
Defined.

(** ** C8 *)

(** C8: when the hard-coded path does not exist, each script prints the
    error line that names the path and exits with status 1; the files
    are as they were, so no descriptor and no backup was created. *)
Theorem C8_missing_file_exits_1 (w : world) :
  files w !! BuildPhase.pbxproj_path = None ->
  BuildPhase.main w =
    (Exited 1,
     World (files w)
       (console w ++ ["Error: project.pbxproj not found at " +:+ BuildPhase.pbxproj_path])
       (entropy w) (drawn w))
  /\ Resources.main w =
    (Exited 1,
     World (files w)
       (console w ++ ["Error: project.pbxproj not found at " +:+ Resources.pbxproj_path])
       (entropy w) (drawn w)).
Proof.
  intros Hf. split.
  - by rewrite build_phase_main_missing.
  - by rewrite resources_main_missing.
Qed.

Lemma C8_witness :
  let w := Examples.empty_world in
  BuildPhase.main w =
    (Exited 1,
     World (files w)
       (console w ++ ["Error: project.pbxproj not found at " +:+ BuildPhase.pbxproj_path])
       (entropy w) (drawn w))
  /\ Resources.main w =
    (Exited 1,
     World (files w)
       (console w ++ ["Error: project.pbxproj not found at " +:+ Resources.pbxproj_path])
       (entropy w) (drawn w)).
Proof.
  apply (C8_missing_file_exits_1 Examples.empty_world). reflexivity.
Defined.

(** ** C5 *)





(** ** C2 *)

(** C2: on a descriptor without the marker and without a shell-script
    section that has the end marker of the Resources build phase
    section, the section step looks for the marker text with a backslash
    in it; unless that spelling occurs too, it inserts nothing, and when
    there is no target record to wire either, the descriptor is written
    back as it was read: no section has been created. *)
Theorem C2_section_not_created (w : world) (path : string) (content : str) :
  files w !! path = Some content ->
  Str.contains BuildPhase.marker content = false ->
  Re.search BuildPhase.shell_section_re content = None ->
  Str.contains BuildPhase.end_resources content = true ->
  Str.contains BuildPhase.end_resources_escaped content = false ->
  let ref := Observe.nth_uuid w 0 in
  BuildPhase.add_phase_record ref content = content
  /\ (Re.search BuildPhase.target_re content = None ->
      BuildPhase.add_build_phase path w =
        (Done tt,
         World (<[path := content]> (files w))
           (console w ++ BuildPhase.msg_added) (entropy w) (2 + drawn w))).
Proof.
  intros Hf Hm Hs He Hesc ref.
  assert (BuildPhase.add_phase_record ref content = content) as Hstep.
  { unfold BuildPhase.add_phase_record. rewrite Hs.
    rewrite (replace_absent _ _ _ Hesc).
    by destruct (Re.search BuildPhase.end_resources_re content). }
  split; [done|]. intros Ht.
  rewrite (add_build_phase_run w path content Hf), Hm.
  unfold BuildPhase.patch. fold ref. rewrite Hstep.
  unfold BuildPhase.wire_target. rewrite Ht. done.
Qed.

Lemma C2_witness :
  let w := Examples.world_with BuildPhase.pbxproj_path Examples.only_resources_phase in
  BuildPhase.add_build_phase BuildPhase.pbxproj_path w =
    (Done tt,
     World (<[BuildPhase.pbxproj_path := Examples.only_resources_phase]> (files w))
       (console w ++ BuildPhase.msg_added) (entropy w) (2 + drawn w))
  /\ Str.occurrences BuildPhase.begin_shell Examples.only_resources_phase = 0.
Proof.
  intros w. split; [|vm_compute; reflexivity].
  apply (C2_section_not_created w BuildPhase.pbxproj_path
           Examples.only_resources_phase); vm_compute; reflexivity.
Defined.

(** ** C3 *)

(** C3, as stated, fails on a descriptor that has a group section and
    no file reference section: the run prints the error line only and
    writes nothing, although the steps it did not reach would have
    changed the content. *)
Lemma C3_counterexample :
  let path := Resources.pbxproj_path in
  let w := Examples.world_with path Examples.no_file_refs in
  let w' := (Resources.add_resources_to_project path w).2 in
  Str.contains Resources.marker_bin Examples.no_file_refs = false
  /\ Str.contains Resources.marker_folder Examples.no_file_refs = false
  /\ console w' = [Resources.msg_no_section]
  /\ files w' = files w
  /\ Resources.patch (Observe.drawn_refs w) Examples.no_file_refs
     <> Examples.no_file_refs.
Proof.
  repeat split; try (vm_compute; reflexivity).
  intros H. apply (f_equal length) in H. vm_compute in H. discriminate H.
Qed.

(** C3, amended: a missing anchor is skipped and the run goes on to
    write the file and report success, except that
    [add_resources_to_project] stops with an error line and no write
    when the PBXFileReference section is missing.  Each step below
    leaves the content alone when its own anchor does not match. *)
Theorem C3_missing_anchor_policy (w : world) (path : string) (content : str) :
  files w !! path = Some content ->
  (Str.contains BuildPhase.marker content = false ->
   let ref := Observe.nth_uuid w 0 in
   BuildPhase.add_build_phase path w =
     (Done tt,
      World (<[path := BuildPhase.wire_target ref
                         (BuildPhase.add_phase_record ref content)]> (files w))
        (console w ++ BuildPhase.msg_added) (entropy w) (2 + drawn w))
   /\ (forall c, Re.search BuildPhase.shell_section_re c = None ->
                 Re.search BuildPhase.end_resources_re c = None ->
                 BuildPhase.add_phase_record ref c = c)
   /\ (forall c, Re.search BuildPhase.target_re c = None ->
                 BuildPhase.wire_target ref c = c))
  /\
  (Str.contains Resources.marker_bin content = false ->
   Str.contains Resources.marker_folder content = false ->
   let r := Observe.drawn_refs w in
   (Re.search Resources.file_ref_section_re content = None ->
    Resources.add_resources_to_project path w =
      (Done tt, World (files w) (console w ++ [Resources.msg_no_section])
                  (entropy w) (6 + drawn w)))
   /\ (is_Some (Re.search Resources.file_ref_section_re content) ->
       Resources.add_resources_to_project path w =
         (Done tt,
          World (<[path := Resources.add_build_file r
                             (Resources.add_to_resources_phase r
                                (Resources.add_groups r
                                   (Resources.add_to_main_group r
                                      (Resources.add_file_refs r content))))]> (files w))
            (console w ++ Resources.msg_added) (entropy w) (6 + drawn w)))
   /\ (forall c, Re.search Resources.project_object_re c = None ->
                 Resources.add_to_main_group r c = c)
   /\ (forall c m, Re.search Resources.project_object_re c = Some m ->
                   Re.search (Resources.main_group_re (Re.group 2 m)) c = None ->
                   Resources.add_to_main_group r c = c)
   /\ (forall c, Re.search Resources.group_section_re c = None ->
                 Resources.add_groups r c = c)
   /\ (forall c, Re.search Resources.resources_phase_re c = None ->
                 Resources.add_to_resources_phase r c = c)
   /\ (forall c, Re.search Resources.build_file_section_re c = None ->
                 Resources.add_build_file r c = c)).
Proof.
  intros Hf. split.
  - intros Hm ref. split; [|split].
    + rewrite (add_build_phase_run w path content Hf), Hm. done.
    + intros c H1 H2. unfold BuildPhase.add_phase_record. by rewrite H1, H2.
    + intros c H. unfold BuildPhase.wire_target. by rewrite H.
  - intros Hb Hm r. repeat split.
    + intros Hs. rewrite (add_resources_run w path content Hf), Hb, Hm, Hs. done.
    + intros [m Hs]. rewrite (add_resources_run w path content Hf), Hb, Hm, Hs. done.
    + intros c H. unfold Resources.add_to_main_group. by rewrite H.
    + intros c m H1 H2. unfold Resources.add_to_main_group. by rewrite H1, H2.
    + intros c H. unfold Resources.add_groups. by rewrite H.
    + intros c H. unfold Resources.add_to_resources_phase. by rewrite H.
    + intros c H. unfold Resources.add_build_file. by rewrite H.
Qed.

Lemma C3_witness :
  let path := Resources.pbxproj_path in
  let w := Examples.world_with path Examples.no_file_refs in
  Resources.add_resources_to_project path w =
    (Done tt, World (files w) (console w ++ [Resources.msg_no_section])
                (entropy w) (6 + drawn w)).
Proof.
  intros path w.
  destruct (C3_missing_anchor_policy w path Examples.no_file_refs eq_refl)
    as [_ Hbundler].
  destruct (Hbundler eq_refl eq_refl) as [Hstop _].
  apply Hstop. vm_compute. reflexivity.
Defined.


(** ** C7 *)

(** C7: let [staged] be the descriptor as it stands when the wiring
    step runs.  When the target pattern matches it, the matched text is
    the record of the hard-coded target up to the last entry of its
    [buildPhases] list, followed by the closing of the list.  If the
    fresh identifier does not occur in the captured text and the matched
    text occurs once, the file written has the identifier right after
    the existing entries and is otherwise as staged; if the identifier
    is already among the entries, the file written is [staged]. *)
Theorem C7_phase_appended_to_target
    (w : world) (path : string) (content : str) (m : Re.captures) :
  files w !! path = Some content ->
  Str.contains BuildPhase.marker content = false ->
  let ref := Observe.nth_uuid w 0 in
  let staged := BuildPhase.add_phase_record ref content in
  Re.search BuildPhase.target_re staged = Some m ->
  let build_phases := Re.group 1 m in
  exists pre attrs entries post,
    staged = pre ++ build_phases ++ lit ");" ++ post
    /\ build_phases =
         lit "F8522F062E588C4300B30F2A /* yt-dlp-MAX */ = {" ++ attrs
         ++ lit "buildPhases = (" ++ entries
    /\ entries <> []
    /\ ReSpec.all_in (Re.none_of ")") entries
    /\ (Str.contains ref build_phases = false ->
        Str.occurrences (build_phases ++ lit ");") staged = 1 ->
        BuildPhase.add_build_phase path w =
          (Done tt,
           World
             (<[path := pre ++ build_phases
                        ++ lit "," ++ [nl] ++ repeat tab 4 ++ ref
                        ++ lit " /* Fix Binary Permissions */,"
                        ++ [nl] ++ repeat tab 3 ++ lit ");" ++ post]> (files w))
             (console w ++ BuildPhase.msg_added) (entropy w) (2 + drawn w)))
    /\ (Str.contains ref entries = true ->
        BuildPhase.add_build_phase path w =
          (Done tt,
           World (<[path := staged]> (files w))
             (console w ++ BuildPhase.msg_added) (entropy w) (2 + drawn w))).
Proof.
  intros Hf Hm ref staged Hs build_phases.
  destruct (ReFacts.search_inv _ _ _ Hs) as (pre & suf & Hst & Hhere).
  destruct (ReFacts.target_match_inv _ _ Hhere)
    as (attrs & entries & post & Hsuf & Hbp & _ & Hentries & Hne).
  fold build_phases in Hsuf, Hbp.
  exists pre, attrs, entries, post.
  assert (staged = pre ++ build_phases ++ lit ");" ++ post) as Hsplit
    by (by rewrite Hst, Hsuf).
  repeat split; try done.
  - intros Hfresh Honce.
    rewrite (add_build_phase_run w path content Hf), Hm.
    unfold BuildPhase.patch. fold ref. fold staged.
    unfold BuildPhase.wire_target. rewrite Hs. fold build_phases.
    rewrite Hfresh. simpl negb. cbv iota.
    assert (staged = pre ++ (build_phases ++ lit ");") ++ post) as Hsplit'
      by (by rewrite <- app_assoc).
    rewrite Hsplit' in Honce |- *.
    rewrite replace_unique; [|by destruct build_phases|done].
    unfold BuildPhase.new_phases, Observe.update. simpl.
    by rewrite <- !app_assoc.
  - intros Hin.
    rewrite (add_build_phase_run w path content Hf), Hm.
    unfold BuildPhase.patch. fold ref. fold staged.
    unfold BuildPhase.wire_target. rewrite Hs. fold build_phases.
    assert (Str.contains ref build_phases = true) as ->.
    { rewrite Hbp. do 3 apply contains_app_r. done. }
    done.
Qed.

Lemma C7_witness :
  let path := BuildPhase.pbxproj_path in
  let w := Examples.world_with path Examples.only_target in
  let ref := Observe.nth_uuid w 0 in
  let staged := BuildPhase.add_phase_record ref Examples.only_target in
  exists m pre post,
    Re.search BuildPhase.target_re staged = Some m
    /\ staged = pre ++ Re.group 1 m ++ lit ");" ++ post
    /\ BuildPhase.add_build_phase path w =
         (Done tt,
          World
            (<[path := pre ++ Re.group 1 m
                       ++ lit "," ++ [nl] ++ repeat tab 4 ++ ref
                       ++ lit " /* Fix Binary Permissions */,"
                       ++ [nl] ++ repeat tab 3 ++ lit ");" ++ post]> (files w))
            (console w ++ BuildPhase.msg_added) (entropy w) (2 + drawn w)).
Proof.
  intros path w ref staged.
  eassert (Re.search BuildPhase.target_re staged = Some _) as Hs
    by (vm_compute; reflexivity).
  destruct (C7_phase_appended_to_target w path Examples.only_target _
              eq_refl eq_refl Hs)
    as (pre & attrs & entries & post & Hst & _ & _ & _ & Happ & _).
  eexists _, pre, post. split; [exact Hs|]. split; [exact Hst|].
  apply Happ; vm_compute; reflexivity.
Defined.

(** ** C6 *)






(** ** C1 *)

(** In what the symbolic run makes of a minimal descriptor neither
    marker occurs, and the file reference section is still found. *)
Lemma minimal_descriptor_sym_unmarked (with_group with_phase : bool) :
  exists t,
    Sym.patch (Sym.sym (Examples.minimal_descriptor with_group with_phase)) = Some t
    /\ Sym.contains (Sym.sym Resources.marker_bin) t = Some false
    /\ Sym.contains (Sym.sym Resources.marker_folder) t = Some false
    /\ Sym.matched (Sym.search Resources.file_ref_section_re t) = true.
Proof.
  destruct with_group, with_phase;
    (eexists; split; [vm_compute; reflexivity|]);
    (split; [vm_compute; reflexivity|]);
    (split; [vm_compute; reflexivity|]);
    vm_compute; reflexivity.
Qed.

(** C1: the Resource Bundler run twice on a minimal descriptor, for
    every identifier it may draw.  What the first run writes contains
    neither marker, so the second run does not return early: it draws
    six more identifiers, patches the patched content and writes it,
    and prints the success lines a second time. *)
Theorem C1_bundler_second_run_writes
    (w : world) (path : string) (with_group with_phase : bool) :
  files w !! path = Some (Examples.minimal_descriptor with_group with_phase) ->
  let once :=
    Resources.patch (Observe.drawn_refs w)
      (Examples.minimal_descriptor with_group with_phase) in
  let w1 := (Resources.add_resources_to_project path w).2 in
  files w1 !! path = Some once
  /\ Str.contains Resources.marker_bin once = false
  /\ Str.contains Resources.marker_folder once = false
  /\ Resources.add_resources_to_project path w1 =
       (Done tt,
        World (<[path := Resources.patch (Observe.drawn_refs w1) once]> (files w1))
          (console w ++ Resources.msg_added ++ Resources.msg_added)
          (entropy w) (12 + drawn w)).
Proof.
  intros Hf once w1.
  destruct (minimal_descriptor_sym_unmarked with_group with_phase)
    as (t & Ht & Hbin & Hfolder & Hsection).
  pose proof (UuidFacts.drawn_well_formed w) as Hwf.
  assert (once = Sym.den (Observe.nth_uuid w) t) as Honce.
  { unfold once.
    rewrite <- (SymFacts.den_sym (Observe.nth_uuid w)
                  (Examples.minimal_descriptor _ _)).
    by apply (SymFacts.patch_sound (Observe.nth_uuid w)). }
  assert (Str.contains Resources.marker_bin once = false) as Hb.
  { rewrite Honce, <- (SymFacts.den_sym (Observe.nth_uuid w) Resources.marker_bin).
    by apply SymFacts.contains_sound. }
  assert (Str.contains Resources.marker_folder once = false) as Hm.
  { rewrite Honce, <- (SymFacts.den_sym (Observe.nth_uuid w) Resources.marker_folder).
    by apply SymFacts.contains_sound. }
  assert (is_Some (Re.search Resources.file_ref_section_re once)) as [m' Hs].
  { destruct (Sym.search Resources.file_ref_section_re t) as [[m|]|] eqn:E;
      try discriminate Hsection.
    rewrite Honce, (SymFacts.search_sound _ Hwf _ _ _ E). by eexists. }
  assert (w1 = Observe.update w (<[path := once]> (files w)) Resources.msg_added 6)
    as Hw1.
  { unfold w1. rewrite (add_resources_run w path _ Hf).
    by destruct with_group, with_phase. }
  assert (files w1 !! path = Some once) as Hf1.
  { rewrite Hw1. simpl. apply lookup_insert_eq. }
  repeat split; try done.
  rewrite (add_resources_run w1 path once Hf1), Hb, Hm, Hs. simpl.
  rewrite Hw1. unfold Observe.update. simpl.
  by rewrite <- app_assoc.
Qed.

Lemma C1_witness :
  let path := Resources.pbxproj_path in
  let w0 := Examples.world_with path (Examples.minimal_descriptor true true) in
  let w1 := (Resources.add_resources_to_project path w0).2 in
  let w2 := (Resources.add_resources_to_project path w1).2 in
  (Resources.add_resources_to_project path w1).1 = Done tt
  /\ console w2 = Resources.msg_added ++ Resources.msg_added
  /\ Str.occurrences Observe.any_file_ref (Observe.content_at w1 path) = 5
  /\ Str.occurrences Observe.any_file_ref (Observe.content_at w2 path) = 10
  /\ Observe.content_at w2 path <> Observe.content_at w1 path.
Proof.
  intros path w0 w1 w2.
  destruct (C1_bundler_second_run_writes w0 path true true eq_refl)
    as (_ & _ & _ & Hrun).
  fold w1 in Hrun. unfold w2. rewrite Hrun.
  split; [done|]. split; [done|].
  split; [vm_compute; reflexivity|]. split; [vm_compute; reflexivity|].
  intros H. apply (f_equal length) in H. vm_compute in H. discriminate H.
Defined.

End Claims.

(** * Further properties of the two scripts *)
Module Extras.
Import StrFacts ReFacts Runs.

(** ** Identifiers *)

(** X1: [generate_uuid] returns 24 characters, all of them digits or
    capitals A to F; the thirteenth is the version digit 4 and the
    seventeenth is the variant digit, one of 8, 9, A and B.  It takes
    one value from the entropy source and touches nothing else. *)
Theorem X1_generate_uuid_shape (w : world) :
  exists u,
    Uuid.generate_uuid w =
      (Done u, World (files w) (console w) (entropy w) (S (drawn w)))
    /\ length u = 24
    /\ Forall (fun c => Re.hex_upper c = true) u
    /\ u !! 12 = Some "4"%char
    /\ exists c, u !! 16 = Some c /\ In c [ "8"; "9"; "A"; "B" ]%char.
Proof.
  exists (Uuid.uuid_of (entropy w (drawn w) mod 2 ^ 128)%N).
  split; [by destruct w|].
  split; [apply UuidFacts.uuid_of_length|].
  split; [apply UuidFacts.uuid_of_hex|].
  rewrite UuidFacts.uuid_of_digits. simpl.
  split; [by rewrite UuidFacts.digit_version|].
  eexists. split; [reflexivity|]. apply UuidFacts.digit_variant.
Qed.

(** ** Calls on a file that is not there *)

(** X2: called on a path that does not exist, both functions fail with
    [FileNotFoundError] at the first line, before anything is printed,
    drawn or written. *)
Theorem X2_missing_file_raises (w : world) (path : string) :
  files w !! path = None ->
  BuildPhase.add_build_phase path w = (Raised (FileNotFoundError path), w)
  /\ Resources.add_resources_to_project path w
     = (Raised (FileNotFoundError path), w).
Proof.
  destruct w as [fs out ent n]. simpl. intros Hf. split.
  - unfold BuildPhase.add_build_phase. run_prog. by rewrite Hf.
  - unfold Resources.add_resources_to_project. run_prog. by rewrite Hf.
Qed.

Lemma X2_witness :
  BuildPhase.add_build_phase "project.pbxproj" Examples.empty_world
  = (Raised (FileNotFoundError "project.pbxproj"), Examples.empty_world)
  /\ Resources.add_resources_to_project "project.pbxproj" Examples.empty_world
     = (Raised (FileNotFoundError "project.pbxproj"), Examples.empty_world).
Proof. apply (X2_missing_file_raises Examples.empty_world). reflexivity. Defined.

(** ** Which files a run writes *)








(** X6: of the two identifiers [add_build_phase] draws, the second is
    never used: what the run writes depends on the entropy source only
    through the first value drawn. *)
Theorem X6_second_identifier_unused
    (w : world) (other : nat -> N) (path : string) (content : str) :
  files w !! path = Some content ->
  other (drawn w) = entropy w (drawn w) ->
  files (BuildPhase.add_build_phase path
           (World (files w) (console w) other (drawn w))).2
  = files (BuildPhase.add_build_phase path w).2.
Proof.
  intros Hf Hsame.
  rewrite (add_build_phase_run w path content Hf).
  rewrite (add_build_phase_run (World (files w) (console w) other (drawn w))
             path content Hf).
  destruct (Str.contains _ content); [done|].
  simpl. unfold Observe.nth_uuid. simpl. by rewrite Hsame.
Qed.

Lemma X6_witness :
  let path := BuildPhase.pbxproj_path in
  let w := Examples.world_with path Examples.only_target in
  let other := fun n => if n =? 0 then entropy w 0 else 0%N in
  files (BuildPhase.add_build_phase path
           (World (files w) (console w) other (drawn w))).2
  = files (BuildPhase.add_build_phase path w).2.
Proof.
  intros path w other.
  apply (X6_second_identifier_unused w other path Examples.only_target);
    reflexivity.
Defined.

(** ** Where the section steps insert *)

(** X7: when the descriptor has a shell-script section and its end
    marker occurs once, [add_phase_record] puts the new phase record
    immediately before that marker and changes nothing else. *)
Theorem X7_phase_before_section_end (ref pre post : str) :
  let content := pre ++ BuildPhase.end_shell ++ post in
  is_Some (Re.search BuildPhase.shell_section_re content) ->
  Str.occurrences BuildPhase.end_shell content = 1 ->
  BuildPhase.add_phase_record ref content
  = pre ++ BuildPhase.new_phase ref ++ BuildPhase.end_shell ++ post.
Proof.
  intros content [m Hs] Honce. unfold BuildPhase.add_phase_record.
  rewrite Hs. unfold content. rewrite replace_unique; [|done|done].
  by rewrite <- app_assoc.
Qed.

Lemma X7_witness :
  let pre := line 0 BuildPhase.begin_shell in
  let post := [nl] in
  let ref := Uuid.uuid_of 7 in
  BuildPhase.add_phase_record ref (pre ++ BuildPhase.end_shell ++ post)
  = pre ++ BuildPhase.new_phase ref ++ BuildPhase.end_shell ++ post.
Proof.
  intros pre post ref. apply (X7_phase_before_section_end ref pre post).
  - vm_compute. eauto.
  - vm_compute. reflexivity.
Defined.

(** X8: when the descriptor has no shell-script section, the section is
    created after the text [str.replace] is given, which is the end
    marker of the Resources build phase section spelled with a
    backslash before its first star; where that text occurs once (and
    the plain marker is found too), the new section follows it
    directly. *)
Theorem X8_section_after_escaped_marker (ref pre post : str) :
  let content := pre ++ BuildPhase.end_resources_escaped ++ post in
  Re.search BuildPhase.shell_section_re content = None ->
  is_Some (Re.search BuildPhase.end_resources_re content) ->
  Str.occurrences BuildPhase.end_resources_escaped content = 1 ->
  BuildPhase.add_phase_record ref content
  = pre ++ BuildPhase.end_resources_escaped ++ BuildPhase.new_section ref ++ post.
Proof.
  intros content Hs [m He] Honce. unfold BuildPhase.add_phase_record.
  rewrite Hs, He. unfold content. rewrite replace_unique; [|done|done].
  by rewrite <- app_assoc.
Qed.

Lemma X8_witness :
  let pre := line 0 BuildPhase.end_resources in
  let post := [nl] in
  let ref := Uuid.uuid_of 7 in
  BuildPhase.add_phase_record ref (pre ++ BuildPhase.end_resources_escaped ++ post)
  = pre ++ BuildPhase.end_resources_escaped ++ BuildPhase.new_section ref ++ post.
Proof.
  intros pre post ref. apply (X8_section_after_escaped_marker ref pre post).
  - vm_compute. reflexivity.
  - vm_compute. eauto.
  - vm_compute. reflexivity.
Defined.

(** X9: each of the three section steps of the Resource Bundler puts
    its records immediately before the end marker of its section, when
    that marker occurs once (and, for the two guarded steps, the section
    is found), and changes nothing else. *)
Theorem X9_records_before_section_end (r : Resources.refs) (pre post : str) :
  (Str.occurrences Resources.end_file_ref (pre ++ Resources.end_file_ref ++ post) = 1 ->
   Resources.add_file_refs r (pre ++ Resources.end_file_ref ++ post)
   = pre ++ Resources.new_refs r ++ Resources.end_file_ref ++ post)
  /\ (is_Some (Re.search Resources.group_section_re
                 (pre ++ Resources.end_group ++ post)) ->
      Str.occurrences Resources.end_group (pre ++ Resources.end_group ++ post) = 1 ->
      Resources.add_groups r (pre ++ Resources.end_group ++ post)
      = pre ++ Resources.resources_group r ++ Resources.end_group ++ post)
  /\ (is_Some (Re.search Resources.build_file_section_re
                 (pre ++ Resources.end_build_file ++ post)) ->
      Str.occurrences Resources.end_build_file
        (pre ++ Resources.end_build_file ++ post) = 1 ->
      Resources.add_build_file r (pre ++ Resources.end_build_file ++ post)
      = pre ++ Resources.build_file_record r ++ Resources.end_build_file ++ post).
Proof.
  split; [|split].
  - intros Honce. unfold Resources.add_file_refs.
    rewrite replace_unique; [|done|done]. by rewrite <- app_assoc.
  - intros [m Hs] Honce. unfold Resources.add_groups. rewrite Hs.
    rewrite replace_unique; [|done|done]. by rewrite <- app_assoc.
  - intros [m Hs] Honce. unfold Resources.add_build_file. rewrite Hs.
    rewrite replace_unique; [|done|done]. by rewrite <- app_assoc.
Qed.

Lemma X9_witness :
  let r := Observe.drawn_refs Examples.empty_world in
  let pre := line 0 (lit "/* Begin PBXGroup section */") in
  Resources.add_groups r (pre ++ Resources.end_group ++ [nl])
  = pre ++ Resources.resources_group r ++ Resources.end_group ++ [nl].
Proof.
  intros r pre.
  destruct (X9_records_before_section_end r pre [nl]) as (_ & Hgroups & _).
  apply Hgroups.
  - vm_compute. eauto.
  - vm_compute. reflexivity.
Defined.

(** ** When a section is found *)

(** X10: the section checks of both scripts succeed exactly on the
    texts in which the begin marker of the section occurs and the end
    marker occurs somewhere after it. *)
Theorem X10_section_found_iff (name : string) (s : str) :
  (is_Some (Re.search (Resources.section_re name) s)
   <-> exists pre mid post,
         s = pre ++ (lit "/* Begin " ++ lit name ++ lit " section */") ++ mid
               ++ (lit "/* End " ++ lit name ++ lit " section */") ++ post)
  /\ (is_Some (Re.search BuildPhase.shell_section_re s)
      <-> exists pre mid post,
            s = pre ++ BuildPhase.begin_shell ++ mid ++ BuildPhase.end_shell ++ post).
Proof. split; apply delimited_search. Qed.

(** ** A second run of the Permission-Fix Injector *)










(** ** The two list steps of the Resource Bundler *)



(** X13: the Resources build phase step.  The text it captures is the
    record of the hard-coded phase up to the closing of its [files]
    list.  If the build file identifier is not in that text, the text
    occurs once in the descriptor and [files = (] occurs once in it,
    the step puts the new entry at the front of the list, on a line of
    its own right after [files = (], and changes nothing else; if the
    identifier is in the captured text, it changes nothing. *)
Theorem X13_entry_at_front_of_files
    (r : Resources.refs) (content : str) (m : Re.captures) :
  Re.search Resources.resources_phase_re content = Some m ->
  let section := Re.group 2 m in
  exists pre post attrs entries,
    content = pre ++ section ++ post
    /\ section = lit "F8522F052E588C4300B30F2A /* Resources */ = {" ++ attrs
                 ++ lit "files = (" ++ entries ++ lit ");"
    /\ ReSpec.all_in (Re.none_of ")") entries
    /\ (Str.contains (Resources.resources_build_ref r) section = false ->
        Str.occurrences section content = 1 ->
        Str.occurrences (lit "files = (") section = 1 ->
        Resources.add_to_resources_phase r content
        = pre ++ lit "F8522F052E588C4300B30F2A /* Resources */ = {" ++ attrs
            ++ lit "files = (" ++ [nl] ++ repeat tab 4
            ++ Resources.resources_build_ref r
            ++ lit " /* Resources in Resources */,"
            ++ entries ++ lit ");" ++ post)
    /\ (Str.contains (Resources.resources_build_ref r) section = true ->
        Resources.add_to_resources_phase r content = content).
Proof.
  intros Hs section.
  destruct (search_inv _ _ _ Hs) as (pre & suf & Hcontent & Hhere).
  destruct (section_record_match_inv _ _ _ _ _ _ _ _ Hhere)
    as (between & attrs & entries & post & Hsuf & Hsection & _ & Hentries).
  fold section in Hsuf, Hsection.
  set (head := lit "F8522F052E588C4300B30F2A /* Resources */ = {") in *.
  set (begin := lit "/* Begin PBXResourcesBuildPhase section */") in *.
  exists (pre ++ begin ++ between), post, attrs, entries.
  assert (content = (pre ++ begin ++ between) ++ section ++ post) as Hsplit.
  { rewrite Hcontent, Hsuf. by rewrite <- !app_assoc. }
  assert (section <> []) as Hne by (by rewrite Hsection).
  repeat split; try done.
  - intros Hfresh Honce Hfiles. unfold Resources.add_to_resources_phase.
    rewrite Hs. fold section. rewrite Hfresh. simpl negb. cbv iota.
    rewrite Hsplit in Honce |- *. rewrite replace_unique; [|done|done].
    f_equal.
    assert (section = (head ++ attrs) ++ lit "files = (" ++ (entries ++ lit ");"))
      as Hsection' by (by rewrite Hsection, <- !app_assoc).
    rewrite Hsection' in Hfiles |- *.
    rewrite replace_unique; [|done|done].
    unfold Resources.phase_entry. by rewrite <- !app_assoc.
  - intros Hin. unfold Resources.add_to_resources_phase.
    rewrite Hs. fold section. by rewrite Hin.
Qed.

Lemma X13_witness :
  let r := Observe.drawn_refs Examples.empty_world in
  let content := Examples.minimal_descriptor false true in
  exists pre post attrs entries,
    Resources.add_to_resources_phase r content
    = pre ++ lit "F8522F052E588C4300B30F2A /* Resources */ = {" ++ attrs
        ++ lit "files = (" ++ [nl] ++ repeat tab 4
        ++ Resources.resources_build_ref r
        ++ lit " /* Resources in Resources */,"
        ++ entries ++ lit ");" ++ post.
Proof.
  intros r content.
  eassert (Re.search Resources.resources_phase_re content = Some _) as Hs
    by (vm_compute; reflexivity).
  destruct (X13_entry_at_front_of_files r content _ Hs)
    as (pre & post & attrs & entries & _ & _ & _ & Hadd & _).
  exists pre, post, attrs, entries.
  apply Hadd; vm_compute; reflexivity.
Defined.

(** ** What the Resource Bundler inserts *)

(** X14: none of the five texts the Resource Bundler inserts contains
    [Resources/bin] or [Resources folder], whatever identifiers the run
    draws: the file reference records, the entry added to the main
    group, the two group records, the entry added to the build phase
    and the build file record. *)
Theorem X14_inserted_text_has_no_marker (w : world) :
  let r := Observe.drawn_refs w in
  Forall (fun text => Str.contains Resources.marker_bin text = false
                      /\ Str.contains Resources.marker_folder text = false)
    [Resources.new_refs r; Resources.new_children r [];
     Resources.resources_group r; Resources.phase_entry r;
     Resources.build_file_record r].
Proof.
  intros r. set (v := Observe.nth_uuid w).
  pose proof (UuidFacts.drawn_well_formed w) as Hwf. fold v in Hwf.
  change r with (Sym.refs_of v).
  rewrite <- (SymFacts.new_refs_den v Hwf), <- (SymFacts.new_children_den v Hwf),
    <- (SymFacts.resources_group_den v Hwf), <- (SymFacts.phase_entry_den v Hwf),
    <- (SymFacts.build_file_record_den v Hwf).
  rewrite <- (SymFacts.den_sym v Resources.marker_bin),
    <- (SymFacts.den_sym v Resources.marker_folder).
  clearbody v.
  repeat constructor;
    apply (SymFacts.contains_sound v Hwf); vm_compute; reflexivity.
Qed.

End Extras.
